(** * lex-helper: intent dispatch and channel formatting

    A shallow embedding of the four source files of the fulfillment
    layer,

    - [lex_helper/channels/lex.py]
    - [lex_helper/channels/channel_formatting.py]
    - [lex_helper/core/call_handler_for_file.py]
    - [lex_helper/core/handler.py]

    together with the properties of the dispatch and formatting pipeline
    that the specification states about them.

    Python objects are records, exceptions are values of [exn] carried by
    the [result] type, and the request object that the handlers mutate is
    threaded through every call that receives it. *)

From Stdlib Require Import String Ascii ZArith List Bool PrimFloat.
From stdpp Require Import gmap strings list fin_maps pretty.

#[local] Set Warnings "-register-all".
#[local] Open Scope Z_scope.

(** ** The Python runtime *)

Module Py.

(** *** Strings *)

Definition is_upper (c : ascii) : bool :=
  let n := N_of_ascii c in ((65 <=? n) && (n <=? 90))%N.

(** [str.lower] on one character; only the letters A-Z have a lower
    case in the ASCII range that intent and channel names live in. *)
Definition lower_ascii (c : ascii) : ascii :=
  if is_upper c then ascii_of_N (N_of_ascii c + 32) else c.

Fixpoint lower (s : string) : string :=
  match s with
  | EmptyString => EmptyString
  | String c r => String (lower_ascii c) (lower r)
  end.

(** [sub in s] *)
Fixpoint str_contains (sub s : string) : bool :=
  String.prefix sub s ||
  match s with
  | EmptyString => false
  | String _ r => str_contains sub r
  end.

(** [sep.join(parts)] *)
Definition join (sep : string) (parts : list string) : string :=
  String.concat sep parts.

(** *** Values *)

(** The values a session attribute or a custom payload can hold.  A
    dictionary keeps its insertion order, which [str] shows. *)
Inductive pyval :=
| VNone
| VBool (b : bool)
| VInt (n : Z)
| VFloat (f : float)
| VStr (s : string)
| VList (l : list pyval)
| VDict (d : list (string * pyval)).

Definition is_none (v : pyval) : bool :=
  match v with VNone => true | _ => false end.

(** [d[k]] / [k in d] on a dictionary value: the first binding of [k]. *)
Fixpoint dict_get (k : string) (d : list (string * pyval)) : option pyval :=
  match d with
  | [] => None
  | (k', v) :: r => if String.eqb k k' then Some v else dict_get k r
  end.

(** What the interpreter provides and the repository only calls: the
    [repr] of a string and of a float, and [json.dumps] on a list of
    strings. *)
Class Runtime := {
  repr_str : string -> string;
  repr_float : float -> string;
  json_dumps : list string -> string;
}.

Section Str.
Context `{Runtime}.

Fixpoint py_repr (v : pyval) : string :=
  match v with
  | VNone => "None"
  | VBool true => "True"
  | VBool false => "False"
  | VInt n => pretty n
  | VFloat f => repr_float f
  | VStr s => repr_str s
  | VList l => "[" +:+ join ", " (List.map py_repr l) +:+ "]"
  | VDict d =>
      "{" +:+
      join ", "
        (List.map
           (fun kv => match kv with
                      | (k, x) => repr_str k +:+ ": " +:+ py_repr x
                      end) d)
      +:+ "}"
  end.

(** [str(v)]: a string is itself, anything else is its [repr]. *)
Definition py_str (v : pyval) : string :=
  match v with
  | VStr s => s
  | _ => py_repr v
  end.
End Str.

(** *** Exceptions *)

(** [IntentNotFoundError] is the one class the handlers tell apart; the
    other constructors are the classes the code raises itself, and
    [PyException] is any further subclass of [Exception]. *)
Inductive exn :=
| IntentNotFoundError (msg : string)
| ValueError (msg : string)
| ImportError (msg : string)
| PyException (cls msg : string).

Definition is_intent_not_found (e : exn) : bool :=
  match e with IntentNotFoundError _ => true | _ => false end.

Inductive result (A : Type) :=
| Ok (a : A)
| Raise (e : exn).
Arguments Ok {A} a.
Arguments Raise {A} e.

End Py.

Export Py.

(** ** The message and request model ([lex_helper.core.types])

    The module that declares these classes is not among the four files;
    the records follow the fields the four files read and write and the
    data model of the specification. *)

Module Types.

Record Button := {
  text : string;
  value : string;
}.

Record ImageResponseCard := {
  title : string;
  subtitle : option string;
  imageUrl : option string;
  buttons : list Button;
}.

Definition set_title (t : string) (c : ImageResponseCard) : ImageResponseCard :=
  {| title := t; subtitle := subtitle c; imageUrl := imageUrl c;
     buttons := buttons c |}.

(** One constructor per message class. *)
Inductive LexMessage :=
| PlainText (content : string)
| LexPlainText (content : string)
| LexSSML (content : string)
| LexImageResponseCard (imageResponseCard : ImageResponseCard)
| LexCustomPayload (content : pyval).

Definition is_image_card (m : LexMessage) : bool :=
  match m with LexImageResponseCard _ => true | _ => false end.

Record Intent := {
  name : string;
  state : option string;
  slots : gmap string pyval;
}.

Record DialogAction := {
  type : string;
}.

Record TimeToLive := {
  timeToLiveInSeconds : Z;
  turnsToLive : Z;
}.

Record ActiveContext := {
  context_name : string;
  contextAttributes : gmap string string;
  timeToLive : TimeToLive;
}.

Record SessionState := {
  dialogAction : option DialogAction;
  intent : option Intent;
  sessionAttributes : gmap string pyval;
  activeContexts : option (list ActiveContext);
}.

Definition set_sessionAttributes (a : gmap string pyval) (s : SessionState)
  : SessionState :=
  {| dialogAction := dialogAction s; intent := intent s;
     sessionAttributes := a; activeContexts := activeContexts s |}.

Definition set_activeContexts (c : option (list ActiveContext))
    (s : SessionState) : SessionState :=
  {| dialogAction := dialogAction s; intent := intent s;
     sessionAttributes := sessionAttributes s; activeContexts := c |}.

Record LexRequest := {
  sessionId : string;
  inputTranscript : string;
  req_sessionState : SessionState;
  req_requestAttributes : option (gmap string string);
}.

Definition set_req_sessionState (s : SessionState) (r : LexRequest)
  : LexRequest :=
  {| sessionId := sessionId r; inputTranscript := inputTranscript r;
     req_sessionState := s;
     req_requestAttributes := req_requestAttributes r |}.

Definition set_req_requestAttributes (a : option (gmap string string))
    (r : LexRequest) : LexRequest :=
  {| sessionId := sessionId r; inputTranscript := inputTranscript r;
     req_sessionState := req_sessionState r;
     req_requestAttributes := a |}.

Record LexResponse := {
  sessionState : SessionState;
  messages : list LexMessage;
  requestAttributes : option (gmap string string);
}.

Definition set_messages (m : list LexMessage) (r : LexResponse) : LexResponse :=
  {| sessionState := sessionState r; messages := m;
     requestAttributes := requestAttributes r |}.

Definition set_sessionState (s : SessionState) (r : LexResponse) : LexResponse :=
  {| sessionState := s; messages := messages r;
     requestAttributes := requestAttributes r |}.

(** The wire form of one message, [{contentType, content,
    [imageResponseCard]}], and of a whole response, as
    [model_dump(exclude_none=True, by_alias=True)] yields them. *)
Record WireMessage := {
  contentType : string;
  wire_content : option pyval;
  wire_imageResponseCard : option ImageResponseCard;
}.

Record WireResponse := {
  wire_sessionState : SessionState;
  wire_messages : list WireMessage;
  wire_requestAttributes : option (gmap string string);
}.

Definition dump_message (m : LexMessage) : WireMessage :=
  match m with
  | PlainText c | LexPlainText c =>
      {| contentType := "PlainText"; wire_content := Some (VStr c);
         wire_imageResponseCard := None |}
  | LexSSML c =>
      {| contentType := "SSML"; wire_content := Some (VStr c);
         wire_imageResponseCard := None |}
  | LexImageResponseCard c =>
      {| contentType := "ImageResponseCard"; wire_content := None;
         wire_imageResponseCard := Some c |}
  | LexCustomPayload c =>
      {| contentType := "CustomPayload"; wire_content := Some c;
         wire_imageResponseCard := None |}
  end.

(** [exclude_none] drops the attributes whose value is [None]. *)
Definition dump_attributes (a : gmap string pyval) : gmap string pyval :=
  filter (fun kv => is_none kv.2 = false) a.

Definition model_dump (r : LexResponse) : WireResponse :=
  {| wire_sessionState :=
       set_sessionAttributes
         (dump_attributes (sessionAttributes (sessionState r)))
         (sessionState r);
     wire_messages := List.map dump_message (messages r);
     wire_requestAttributes := requestAttributes r |}.

End Types.

Export Types.

(** ** Channels ([lex_helper/channels]) *)

Module Channels.

(** What a formatting method hands back: a message object or, where
    the method returns [str(...)], a bare string. *)
Inductive Rendered :=
| RMessage (m : LexMessage)
| RString (s : string).

(** The formatting contract every channel implements. *)
Record Channel := {
  format_plain_text : LexMessage -> LexMessage;
  format_ssml_text : LexMessage -> LexMessage;
  format_image_card : ImageResponseCard -> LexMessage;
  format_custom_payload : pyval -> Rendered;
}.

(** The SMS channel class is imported by [channel_formatting.py] and
    defined elsewhere. *)
Class Installed := {
  SMSChannel : Channel;
}.

(** What [isinstance] answers for the one pair of message classes whose
    relation the four files do not show. *)
Class Hierarchy := {
  PlainText_isa_LexPlainText : bool;
}.

Definition newline : string := String "010"%char EmptyString.

(** Truth value of an optional string field: set and not empty. *)
Definition truthy (o : option string) : bool :=
  match o with
  | Some (String _ _) => true
  | _ => false
  end.

Definition field (o : option string) : string :=
  match o with Some s => s | None => EmptyString end.

Section Lex.
Context `{Runtime}.

(** Modelled from the spec: the base class [Channel]
    ([lex_helper.channels.base]) that [LexChannel.format_plain_text]
    and [LexChannel.format_ssml_text] defer to is not among the
    source files; by the specification plain text and speech markup
    pass through unchanged. *)
Definition base_format_plain_text (message : LexMessage) : LexMessage :=
  message.

Definition base_format_ssml_text (message : LexMessage) : LexMessage :=
  message.

(** lex.py, [LexChannel.format_image_card] *)
Definition button_text (btn : Button) : string :=
  "[" +:+ text btn +:+ " -> " +:+ value btn +:+ "]".

Definition image_card_parts (card : ImageResponseCard) : list string :=
  [title card]
  ++ (if truthy (subtitle card) then [field (subtitle card)] else [])
  ++ (if truthy (imageUrl card)
      then ["Image: " +:+ field (imageUrl card)] else [])
  ++ (match buttons card with
      | [] => []
      | _ :: _ =>
          ["Buttons: " +:+ join " " (List.map button_text (buttons card))]
      end).

Definition lex_format_image_card (card : ImageResponseCard) : LexMessage :=
  LexPlainText (join newline (image_card_parts card)).

(** lex.py, [LexChannel.format_custom_payload] *)
Definition lex_format_custom_payload (content : pyval) : Rendered :=
  match content with
  | VDict d =>
      match dict_get "text" d with
      | Some v => RString (py_str v)
      | None =>
          match dict_get "message" d with
          | Some v => RString (py_str v)
          | None => RMessage (LexCustomPayload (VStr (py_str content)))
          end
      end
  | _ => RMessage (LexCustomPayload (VStr (py_str content)))
  end.

Definition LexChannel : Channel :=
  {| format_plain_text := base_format_plain_text;
     format_ssml_text := base_format_ssml_text;
     format_image_card := lex_format_image_card;
     format_custom_payload := lex_format_custom_payload |}.

Definition unsupported : LexMessage := LexPlainText "Unsupported message type".

(** lex.py, [LexChannel.format_message]: the [isinstance] tests in
    their order.  The four Lex message classes are told apart by their
    constructors; whether the class [PlainText] passes the test for
    [LexPlainText] is left to the class hierarchy. *)
Definition format_message `{Hierarchy} (message : LexMessage) : Rendered :=
  match message with
  | LexSSML _ => RMessage (format_ssml_text LexChannel message)
  | LexPlainText _ => RMessage (format_plain_text LexChannel message)
  | LexImageResponseCard card => RMessage (format_image_card LexChannel card)
  | LexCustomPayload content => format_custom_payload LexChannel content
  | PlainText _ =>
      if PlainText_isa_LexPlainText
      then RMessage (format_plain_text LexChannel message)
      else RMessage unsupported
  end.

(** lex.py, [LexChannel.format_messages] *)
Definition format_messages `{Hierarchy} (messages : list LexMessage)
  : list Rendered :=
  List.map format_message messages.
End Lex.

End Channels.

Export Channels.

(** ** Response assembly ([lex_helper/channels/channel_formatting.py]) *)

Module ChannelFormatting.

Section Formatting.
Context `{Runtime} `{Installed}.

(** Modelled from the spec: [add_to_list]
    ([lex_helper.utils.add_to_list]) is not among the source files;
    a formatter yields one output message per input message, kept
    in order, so the item goes to the end of the list. *)
Definition add_to_list (lst : list LexMessage) (item : LexMessage)
  : list LexMessage :=
  lst ++ [item].

Definition _get_channel (channel_string : string) : Channel :=
  let channels : gmap string Channel :=
    <["lex" := LexChannel]> (<["sms" := SMSChannel]> ∅) in
  default LexChannel (channels !! lower channel_string).

Definition Formatter : Type :=
  LexMessage -> Channel -> list string -> list LexMessage -> list LexMessage.

Definition _format_plain_text : Formatter :=
  fun message channel options_provided formatted_messages =>
    add_to_list formatted_messages (format_plain_text channel message).

Definition _format_ssml_text : Formatter :=
  fun message channel options_provided formatted_messages =>
    add_to_list formatted_messages (format_ssml_text channel message).

Definition _format_image_card : Formatter :=
  fun message channel options_provided formatted_messages =>
    add_to_list formatted_messages message.

(** [content_process_map.get(type(message))] *)
Definition content_process_map (message : LexMessage) : option Formatter :=
  match message with
  | PlainText _ => Some _format_plain_text
  | LexPlainText _ => Some _format_plain_text
  | LexImageResponseCard _ => Some _format_image_card
  | LexSSML _ => Some _format_ssml_text
  | LexCustomPayload _ => None
  end.

Definition no_formatter : exn :=
  PyException "Exception" "No formatter was found for this message type".

(** The loop over [response.messages] (lines 45-59). *)
Fixpoint format_each (channel : Channel) (options_provided : list string)
    (todo formatted_messages : list LexMessage)
  : result (list LexMessage) :=
  match todo with
  | [] => Ok formatted_messages
  | message :: rest =>
      match content_process_map message with
      | Some fn =>
          format_each channel options_provided rest
            (fn message channel options_provided formatted_messages)
      | None => Raise no_formatter
      end
  end.

(** The single image card rewrite (lines 64-75). *)
Definition image_card_special_handling (formatted_messages : list LexMessage)
  : list LexMessage :=
  match formatted_messages with
  | [LexImageResponseCard card] =>
      [LexPlainText (title card);
       LexImageResponseCard (set_title " " card)]
  | _ => formatted_messages
  end.

(** The list assigned to [formatted_response.messages] (line 82). *)
Definition formatted_messages_of (response : LexResponse)
    (channel_string : string) : result (list LexMessage) :=
  let channel := _get_channel channel_string in
  match format_each channel [] (messages response) [] with
  | Ok formatted_messages =>
      Ok (image_card_special_handling formatted_messages)
  | Raise e => Raise e
  end.

(** One turn of the loop of [_stringify_session_attributes]. *)
Definition stringify_key (attrs : gmap string pyval) (key : string)
  : gmap string pyval :=
  match attrs !! key with
  | Some v => <[key := VStr (py_str v)]> attrs
  | None => attrs
  end.

Definition stringify_attributes (attrs : gmap string pyval)
  : gmap string pyval :=
  foldl stringify_key attrs (map_to_list attrs).*1.

Definition _stringify_session_attributes (dumped : WireResponse)
  : WireResponse :=
  {| wire_sessionState :=
       set_sessionAttributes
         (stringify_attributes
            (sessionAttributes (wire_sessionState dumped)))
         (wire_sessionState dumped);
     wire_messages := wire_messages dumped;
     wire_requestAttributes := wire_requestAttributes dumped |}.

Definition format_for_channel (response : LexResponse)
    (channel_string : string) : result WireResponse :=
  match formatted_messages_of response channel_string with
  | Raise e => Raise e
  | Ok formatted_messages =>
      (* no formatter adds to the list of offered options *)
      let options_provided : list string := [] in
      let session :=
        if (0 <? length options_provided)%nat
        then set_sessionAttributes
               (<["options_provided" := VStr (json_dumps options_provided)]>
                  (sessionAttributes (sessionState response)))
               (sessionState response)
        else sessionState response in
      let formatted_response :=
        set_messages formatted_messages (set_sessionState session response) in
      Ok (_stringify_session_attributes (model_dump formatted_response))
  end.
End Formatting.

End ChannelFormatting.

Export ChannelFormatting.

(** ** Intent resolution ([lex_helper/core/call_handler_for_file.py]) *)

Module Resolver.

(** The [handler] function of an intent module.  It receives the
    request object and may change it before it returns or raises. *)
Definition IntentHandler : Type :=
  LexRequest -> LexRequest * result LexResponse.

(** An imported module: its [handler] attribute when it is a
    function. *)
Record PyModule := {
  handler_func : option IntentHandler;
}.

(** [importlib.import_module] over the modules the deployment ships. *)
Class Importer := {
  import_module : string -> result PyModule;
}.

(** Modelled from the spec: [title_to_snake] ([lex_helper.utils.string])
    is not among the source files; it converts a capitalized-words
    name to separator form ("OrderPizza" to "order_pizza"): a
    separator goes before every capital letter but the first, and the
    letters are lower-cased. *)
Fixpoint snake_rest (s : string) : string :=
  match s with
  | EmptyString => EmptyString
  | String c r =>
      if is_upper c
      then String "_" (String (lower_ascii c) (snake_rest r))
      else String c (snake_rest r)
  end.

Definition title_to_snake (s : string) : string :=
  match s with
  | EmptyString => EmptyString
  | String c r => String (lower_ascii c) (snake_rest r)
  end.

Definition generic_apology : string :=
  "I'm sorry, I encountered an error while processing your request. Please try again.".

(** Modelled from the spec: [handle_exceptions]
    ([lex_helper.exceptions.handlers]) is not among the source files;
    it turns an exception into a fallback turn response: a closing
    dialog action with the configured apology message, or a generic
    one. *)
Definition handle_exceptions (e : exn) (lex_request : LexRequest)
    (error_message : option string) : LexResponse :=
  let s := req_sessionState lex_request in
  {| sessionState :=
       {| dialogAction := Some {| type := "Close" |};
          intent := intent s;
          sessionAttributes := sessionAttributes s;
          activeContexts := activeContexts s |};
     messages := [LexPlainText (default generic_apology error_message)];
     requestAttributes := req_requestAttributes lex_request |}.

Section Resolve.
Context `{Importer}.

(** Lines 24-42: the module an intent name stands for. *)
Definition file_to_import (intent_name : string)
    (package_name : option string) : string :=
  let package_name := default "fulfillment_function" package_name in
  let file :=
    if str_contains "_" intent_name
    then lower intent_name
    else title_to_snake intent_name in
  package_name +:+ ".intents." +:+ file.

Definition missing_handler (file : string) : exn :=
  ValueError
    ("Error: Unable to load handler, " +:+ file +:+
     ".py does not have a 'handler' function.").

(** Lines 23-76: the body of the outer [try]. *)
Definition resolve_and_call (intent_name : string)
    (lex_request : LexRequest) (package_name : option string)
  : LexRequest * result LexResponse :=
  let file := file_to_import intent_name package_name in
  match import_module file with
  | Raise (ImportError _) =>
      (lex_request,
       Raise (IntentNotFoundError "Unable to find handler for intent"))
  | Raise e => (lex_request, Raise e)
  | Ok module =>
      match handler_func module with
      | None => (lex_request, Raise (missing_handler file))
      | Some handler => handler lex_request
      end
  end.

(** The outer [except] clauses (lines 77-84): an
    [IntentNotFoundError] is raised again, any other exception
    becomes the response of [handle_exceptions]. *)
Definition call_handler_for_file (intent_name : string)
    (lex_request : LexRequest) (package_name : option string)
  : LexRequest * result LexResponse :=
  match resolve_and_call intent_name lex_request package_name with
  | (lex_request', Ok response) => (lex_request', Ok response)
  | (lex_request', Raise (IntentNotFoundError m)) =>
      (lex_request', Raise (IntentNotFoundError m))
  | (lex_request', Raise e) =>
      (lex_request', Ok (handle_exceptions e lex_request' None))
  end.
End Resolve.

End Resolver.

Export Resolver.

(** ** The orchestrator ([lex_helper/core/handler.py]) *)

Module Handler.

Record Config := {
  session_attributes : gmap string pyval;
  package_name : option string;
  auto_initialize_messages : bool;
  auto_handle_exceptions : bool;
  error_message : option string;
  enable_disambiguation : bool;
}.

(** The defaults of the [Config] class. *)
Definition default_config (attrs : gmap string pyval) : Config :=
  {| session_attributes := attrs;
     package_name := Some "fulfillment_function";
     auto_initialize_messages := true;
     auto_handle_exceptions := true;
     error_message := None;
     enable_disambiguation := false |}.

Record AnalysisResult := {
  should_disambiguate : bool;
  candidates : list pyval;
}.

(** What [handler.py] imports from the rest of the package: request
    parsing and the dialog helpers ([lex_helper.core.dialog]), the
    message catalog, and the disambiguation components. *)
Class Collaborators := {
  parse_lex_request : pyval -> gmap string pyval -> result LexRequest;
  LexRequest_of_event : pyval -> result LexRequest;
  get_intent : LexRequest -> result Intent;
  any_unknown_slot_choices : LexRequest -> result bool;
  handle_any_unknown_slot_choice :
    LexRequest -> LexRequest * result LexResponse;
  get_message : string -> result string;
  disambiguation_available : bool;
  process_disambiguation_response :
    LexRequest -> LexRequest * result (option LexResponse);
  analyze_request : LexRequest -> result AnalysisResult;
  handle_disambiguation :
    LexRequest -> list pyval -> LexRequest * result LexResponse;
}.

(** A member of the handler chain: a response, [None] to decline, or
    an exception; the request object is shared with the chain. *)
Definition ChainHandler : Type :=
  LexRequest -> LexRequest * result (option LexResponse).

Section Orchestrator.
Context `{Runtime} `{Installed} `{Importer} `{Collaborators}.

Variable config : Config.

(** [self.disambiguation_handler] is set by [__init__] when the
    feature is enabled and its modules could be imported. *)
Definition disambiguation_handler_set : bool :=
  enable_disambiguation config && disambiguation_available.

Definition transition_to_exit : ActiveContext :=
  {| context_name := "transition_to_exit";
     contextAttributes := ∅;
     timeToLive := {| timeToLiveInSeconds := 900; turnsToLive := 20 |} |}.

Definition disambiguation_intent_handler : ChainHandler :=
  fun lex_payload =>
    if negb disambiguation_handler_set then (lex_payload, Ok None)
    else
      match process_disambiguation_response lex_payload with
      | (p, Raise e) => (p, Raise e)
      | (p, Ok (Some disambiguation_response)) =>
          (p, Ok (Some disambiguation_response))
      | (p, Ok None) =>
          match analyze_request p with
          | Raise e => (p, Raise e)
          | Ok analysis_result =>
              match should_disambiguate analysis_result,
                    candidates analysis_result with
              | true, _ :: _ =>
                  match handle_disambiguation p
                          (candidates analysis_result) with
                  | (p', Raise e) => (p', Raise e)
                  | (p', Ok r) => (p', Ok (Some r))
                  end
              | _, _ => (p, Ok None)
              end
          end
      end.

Definition no_intent : exn :=
  PyException "AttributeError" "'NoneType' object has no attribute 'name'".

Definition regular_intent_handler : ChainHandler :=
  fun lex_payload =>
    match get_intent lex_payload with
    | Raise e => (lex_payload, Raise e)
    | Ok intent_ =>
        let intent_name := name intent_ in
        let s := req_sessionState lex_payload in
        let s :=
          set_sessionAttributes
            (<["lex_intent" := VStr intent_name]> (sessionAttributes s)) s in
        let s :=
          if negb (str_contains "Common_Exit_Feedback" intent_name)
          then set_activeContexts (Some [transition_to_exit]) s
          else s in
        let lex_payload := set_req_sessionState s lex_payload in
        match any_unknown_slot_choices lex_payload with
        | Raise e => (lex_payload, Raise e)
        | Ok true =>
            match handle_any_unknown_slot_choice lex_payload with
            | (p, Raise e) => (p, Raise e)
            | (p, Ok r) => (p, Ok (Some r))
            end
        | Ok false =>
            match intent (req_sessionState lex_payload) with
            | None => (lex_payload, Raise no_intent)
            | Some i =>
                match call_handler_for_file (name i) lex_payload
                        (package_name config) with
                | (p, Raise e) => (p, Raise e)
                | (p, Ok r) => (p, Ok (Some r))
                end
            end
        end
    end.

(** Lines 182-194. *)
Definition handlers : list ChainHandler :=
  (if disambiguation_handler_set then [disambiguation_intent_handler]
   else [])
  ++ [regular_intent_handler].

(** The loop over the chain (lines 196-214).  [response] is the
    variable the loop assigns; a handler that raises leaves it as it
    was. *)
Fixpoint run_handlers (chain : list ChainHandler) (lex_payload : LexRequest)
    (response : option LexResponse)
  : LexRequest * result (option LexResponse) :=
  match chain with
  | [] => (lex_payload, Ok response)
  | message_handler :: rest =>
      match message_handler lex_payload with
      | (p, Ok (Some r)) => (p, Ok (Some r))
      | (p, Ok None) => run_handlers rest p None
      | (p, Raise (IntentNotFoundError m)) =>
          (p, Raise (IntentNotFoundError m))
      | (p, Raise _) => run_handlers rest p response
      end
  end.

Definition no_handler (lex_intent_name : string) : exn :=
  ValueError ("Unable to find handler for intent: " +:+ lex_intent_name).

(** Lines 216-218: the chain and the check that follows it. *)
Definition first_response (chain : list ChainHandler)
    (lex_intent_name : string) (lex_payload : LexRequest)
  : LexRequest * result LexResponse :=
  match run_handlers chain lex_payload None with
  | (p, Raise e) => (p, Raise e)
  | (p, Ok None) => (p, Raise (no_handler lex_intent_name))
  | (p, Ok (Some response)) => (p, Ok response)
  end.

(** Lines 226-248: the response is copied into the request, and a
    [callback] request attribute dispatches a second intent.  The
    dictionary popped from is the one just stored in the request. *)
Definition callback_dispatch (response : LexResponse)
    (lex_payload : LexRequest) : LexRequest * result LexResponse :=
  let lex_payload :=
    set_req_requestAttributes (requestAttributes response)
      (set_req_sessionState (sessionState response) lex_payload) in
  let messages_ := messages response in
  match requestAttributes response ≫= (.!! "callback") with
  | Some callback_name =>
      let popped := delete "callback" <$> requestAttributes response in
      let lex_payload := set_req_requestAttributes popped lex_payload in
      match call_handler_for_file callback_name lex_payload
              (package_name config) with
      | (p, Raise e) => (p, Raise e)
      | (p, Ok response2) =>
          (set_req_sessionState (sessionState response2) p,
           Ok (set_messages (messages_ ++ messages response2) response2))
      end
  | None => (lex_payload, Ok (set_messages messages_ response))
  end.

(** The [try] block of [_main_handler] (lines 173-249) over a given
    chain. *)
Definition dispatch (chain : list ChainHandler) (lex_payload : LexRequest)
  : LexRequest * result LexResponse :=
  match get_intent lex_payload with
  | Raise e => (lex_payload, Raise e)
  | Ok lex_intent =>
      match first_response chain (name lex_intent) lex_payload with
      | (p, Raise e) => (p, Raise e)
      | (p, Ok response) => callback_dispatch response p
      end
  end.

(** The [except] clauses of that block (lines 251-258): the response
    that goes to formatting. *)
Definition turn_response (chain : list ChainHandler)
    (lex_payload : LexRequest) : result LexResponse :=
  match dispatch chain lex_payload with
  | (_, Ok response) => Ok response
  | (_, Raise (IntentNotFoundError m)) => Raise (IntentNotFoundError m)
  | (p, Raise e) => Ok (handle_exceptions e p None)
  end.

Definition _main_handler (lex_payload : LexRequest) : result WireResponse :=
  match turn_response handlers lex_payload with
  | Raise e => Raise e
  | Ok response => format_for_channel response "lex"
  end.

(** [_initialize_message_manager] only sets the locale of the
    message catalog and swallows what it raises; the catalog is the
    [get_message] of the collaborators. *)
Definition _handle_request_with_auto_exception_handling (event : pyval)
  : result WireResponse :=
  match parse_lex_request event (session_attributes config) with
  | Raise e => Raise e
  | Ok lex_payload => _main_handler lex_payload
  end.

Definition _create_minimal_error_response : WireResponse :=
  let error_message_ :=
    match error_message config with
    | Some (String _ _ as key) =>
        match get_message key with
        | Ok m => m
        | Raise _ => key
        end
    | _ => generic_apology
    end in
  {| wire_sessionState :=
       {| dialogAction := Some {| type := "Close" |};
          intent :=
            Some {| name := "FallbackIntent"; state := Some "Failed";
                    slots := ∅ |};
          sessionAttributes := ∅;
          activeContexts := None |};
     wire_messages :=
       [{| contentType := "PlainText";
           wire_content := Some (VStr error_message_);
           wire_imageResponseCard := None |}];
     wire_requestAttributes := None |}.

Definition handler (event : pyval) : result WireResponse :=
  if auto_handle_exceptions config then
    match _handle_request_with_auto_exception_handling event with
    | Ok r => Ok r
    | Raise e =>
        match LexRequest_of_event event with
        | Raise _ => Ok _create_minimal_error_response
        | Ok lex_request =>
            format_for_channel
              (handle_exceptions e lex_request (error_message config))
              "lex"
        end
    end
  else _handle_request_with_auto_exception_handling event.
End Orchestrator.

End Handler.

Export Handler.

(** ** Notions used to state the properties *)

Module Notions.

(** What the loop of [format_for_channel] appends for one message. *)
Definition rendered_by (channel : Channel) (m : LexMessage) : LexMessage :=
  match m with
  | PlainText _ | LexPlainText _ => format_plain_text channel m
  | LexSSML _ => format_ssml_text channel m
  | LexImageResponseCard _ | LexCustomPayload _ => m
  end.

Definition has_formatter (m : LexMessage) : bool :=
  match content_process_map m with
  | Some _ => true
  | None => false
  end.

(** The rewrite of the single image card took place: [out] is [input]
    with a plain text of the card's title in front and the card's own
    title blanked. *)
Definition rewritten (input out : list LexMessage) : Prop :=
  exists card,
    input = [LexImageResponseCard card] /\
    out = [LexPlainText (title card);
           LexImageResponseCard (set_title " " card)].

(** The string form that replaces a session attribute. *)
Definition coerce `{Runtime} (v : pyval) : pyval := VStr (py_str v).

(** A capitalized word: one capital letter, then characters that are
    neither capitals nor separators. *)
Definition word_char (c : ascii) : bool :=
  negb (is_upper c) && negb (Ascii.eqb c "_").

Fixpoint all_chars (p : ascii -> bool) (s : string) : bool :=
  match s with
  | EmptyString => true
  | String c r => p c && all_chars p r
  end.

Definition capitalized_word (w : string) : bool :=
  match w with
  | EmptyString => false
  | String c r => is_upper c && all_chars word_char r
  end.

Definition camel_case (words : list string) : string :=
  String.concat EmptyString words.

(** Every handler of [chain] declines, by returning [None] or by
    raising something other than [IntentNotFoundError]; the request
    goes from [p] to [p'] on the way. *)
Inductive Declined : list ChainHandler -> LexRequest -> LexRequest -> Prop :=
| Declined_nil p : Declined [] p p
| Declined_none h rest p p1 p' :
    h p = (p1, Ok None) ->
    Declined rest p1 p' ->
    Declined (h :: rest) p p'
| Declined_raise h rest p p1 p' e :
    h p = (p1, Raise e) ->
    is_intent_not_found e = false ->
    Declined rest p1 p' ->
    Declined (h :: rest) p p'.

(** The request the second intent receives: the session state of the
    first response, and its request attributes without the callback. *)
Definition forwarded (response : LexResponse) (p : LexRequest)
  : LexRequest :=
  set_req_requestAttributes
    (delete "callback" <$> requestAttributes response)
    (set_req_sessionState (sessionState response) p).

(** A fallback turn response on the wire: the dialog is closed and the
    one message is the plain text [apology]. *)
Definition closing_fallback (apology : string) (out : WireResponse) : Prop :=
  dialogAction (wire_sessionState out) = Some {| type := "Close" |} /\
  wire_messages out =
    [{| contentType := "PlainText"; wire_content := Some (VStr apology);
        wire_imageResponseCard := None |}].

(** An image card without a subtitle, an image or buttons to show. *)
Definition bare (card : ImageResponseCard) : bool :=
  negb (truthy (subtitle card)) && negb (truthy (imageUrl card))
  && match buttons card with [] => true | _ => false end.

(** The request as [regular_intent_handler] has it when it turns to the
    slot choices and to the handler of the intent. *)
Definition routed (intent_name : string) (p : LexRequest) : LexRequest :=
  let s := req_sessionState p in
  let s :=
    set_sessionAttributes
      (<["lex_intent" := VStr intent_name]> (sessionAttributes s)) s in
  let s :=
    if negb (str_contains "Common_Exit_Feedback" intent_name)
    then set_activeContexts (Some [transition_to_exit]) s
    else s in
  set_req_sessionState s p.

End Notions.

Export Notions.

(** ** A sample deployment for the worked examples *)

Module Sample.

Definition dquote : string := String "034"%char EmptyString.

(** Strings without quotes or escapes are shown between single quotes;
    the examples hold no float. *)
#[export] Instance runtime : Runtime :=
  {| repr_str := fun s => "'" +:+ s +:+ "'";
     repr_float := fun _ => "<float>";
     json_dumps := fun l =>
       "[" +:+ join ", " (List.map (fun s => dquote +:+ s +:+ dquote) l)
       +:+ "]" |}.

(** An SMS channel that turns speech markup into plain text. *)
Definition sms : Channel :=
  {| format_plain_text := fun m => m;
     format_ssml_text := fun m =>
       match m with LexSSML c => LexPlainText c | _ => m end;
     format_image_card := lex_format_image_card;
     format_custom_payload := lex_format_custom_payload |}.

#[export] Instance installed : Installed := {| SMSChannel := sms |}.

#[export] Instance hierarchy : Hierarchy :=
  {| PlainText_isa_LexPlainText := false |}.

Definition intent_named (n : string) : Intent :=
  {| name := n; state := None; slots := ∅ |}.

Definition request (n transcript : string) : LexRequest :=
  {| sessionId := "session-1";
     inputTranscript := transcript;
     req_sessionState :=
       {| dialogAction := None; intent := Some (intent_named n);
          sessionAttributes := ∅; activeContexts := None |};
     req_requestAttributes := None |}.

Definition reply (said : string) (attrs : option (gmap string string))
  : IntentHandler :=
  fun req =>
    (req,
     Ok {| sessionState := req_sessionState req;
           messages := [LexPlainText said];
           requestAttributes := attrs |}).

Definition runtime_error : exn := PyException "RuntimeError" "boom".

Definition boom : IntentHandler := fun req => (req, Raise runtime_error).

Definition intents : list (string * PyModule) :=
  [("fulfillment_function.intents.order_pizza",
    {| handler_func := Some (reply "Which size?" None) |});
   ("fulfillment_function.intents.first",
    {| handler_func :=
         Some (reply "one" (Some {["callback" := "Second"]})) |});
   ("fulfillment_function.intents.second",
    {| handler_func :=
         Some (reply "two" (Some {["callback" := "Third"]})) |});
   ("fulfillment_function.intents.boom",
    {| handler_func := Some boom |});
   ("fulfillment_function.intents.empty",
    {| handler_func := None |})].

Fixpoint find_module (file : string) (l : list (string * PyModule))
  : result PyModule :=
  match l with
  | [] => Raise (ImportError ("No module named " +:+ file))
  | (f, m) :: r => if String.eqb file f then Ok m else find_module file r
  end.

#[export] Instance importer : Importer :=
  {| import_module := fun file => find_module file intents |}.

Definition parse (event : pyval) : result LexRequest :=
  match event with
  | VDict d =>
      match dict_get "intent" d, dict_get "inputTranscript" d with
      | Some (VStr n), Some (VStr t) => Ok (request n t)
      | _, _ => Raise (PyException "ValidationError" "field required")
      end
  | _ => Raise (PyException "TypeError" "argument must be a mapping")
  end.

#[export] Instance collaborators : Collaborators :=
  {| parse_lex_request := fun event _ => parse event;
     LexRequest_of_event := parse;
     get_intent := fun p =>
       match intent (req_sessionState p) with
       | Some i => Ok i
       | None => Raise (ValueError "no intent")
       end;
     any_unknown_slot_choices := fun p =>
       if String.eqb (inputTranscript p) "???"
       then Raise (PyException "KeyError" "slot")
       else Ok false;
     handle_any_unknown_slot_choice := fun p =>
       (p, Raise (PyException "KeyError" "slot"));
     get_message := fun key => Raise (PyException "KeyError" key);
     disambiguation_available := false;
     process_disambiguation_response := fun p => (p, Ok None);
     analyze_request := fun _ =>
       Ok {| should_disambiguate := false; candidates := [] |};
     handle_disambiguation := fun p _ =>
       (p, Raise (PyException "RuntimeError" "disabled")) |}.

Definition config : Config := default_config ∅.

Definition event (n transcript : string) : pyval :=
  VDict [("intent", VStr n); ("inputTranscript", VStr transcript)].

Definition card (t : string) : ImageResponseCard :=
  {| title := t; subtitle := Some "Pick one";
     imageUrl := Some "https://example.com/menu.png";
     buttons := [ {| text := "Small"; value := "S" |};
                  {| text := "Large"; value := "L" |} ] |}.

Definition response_with (ms : list LexMessage) (attrs : gmap string pyval)
  : LexResponse :=
  {| sessionState :=
       {| dialogAction := None; intent := Some (intent_named "OrderPizza");
          sessionAttributes := attrs; activeContexts := None |};
     messages := ms;
     requestAttributes := None |}.

Definition attributes : gmap string pyval :=
  <["count" := VInt 3]>
    (<["flag" := VBool true]>
       (<["gone" := VNone]>
          (<["nested" := VDict [("a", VList [VInt 1; VStr "x"])]]> ∅))).

(** A turn for the intent "First", whose handler asks for the intent
    "Second" to be called next. *)
Definition first_turn : LexRequest := request "First" "hi".

Definition first_turn_routed : LexRequest :=
  (regular_intent_handler config first_turn).1.

Definition first_reply : LexResponse :=
  {| sessionState := req_sessionState first_turn_routed;
     messages := [LexPlainText "one"];
     requestAttributes := Some {["callback" := "Second"]} |}.

Definition second_reply : LexResponse :=
  {| sessionState := sessionState first_reply;
     messages := [LexPlainText "two"];
     requestAttributes := Some {["callback" := "Third"]} |}.

(** A turn on which the check of the slot choices raises. *)
Definition failing_turn : LexRequest := request "OrderPizza" "???".

Definition key_error : exn := PyException "KeyError" "slot".

(** A first handler that calls back an intent no module stands for. *)
Definition lost_reply : LexResponse :=
  {| sessionState := req_sessionState first_turn;
     messages := [LexPlainText "one"];
     requestAttributes := Some {["callback" := "Nowhere"]} |}.

Definition lost : ChainHandler := fun p => (p, Ok (Some lost_reply)).

Definition silent : ChainHandler := fun p => (p, Ok None).

Definition crashing : ChainHandler := fun p => (p, Raise runtime_error).

Definition pizza_turn : LexRequest := request "OrderPizza" "a pizza".

Definition pizza_reply : LexResponse :=
  {| sessionState := req_sessionState (routed "OrderPizza" pizza_turn);
     messages := [LexPlainText "Which size?"];
     requestAttributes := None |}.

(** A deployment with the disambiguation components, which answer
    every turn whose transcript is "maybe". *)
Definition prompt : LexResponse :=
  {| sessionState := req_sessionState first_turn;
     messages := [LexPlainText "Did you mean A or B?"];
     requestAttributes := None |}.

Definition disambiguating : Collaborators :=
  {| parse_lex_request := fun event _ => parse event;
     LexRequest_of_event := parse;
     get_intent := fun p =>
       match intent (req_sessionState p) with
       | Some i => Ok i
       | None => Raise (ValueError "no intent")
       end;
     any_unknown_slot_choices := fun _ => Ok false;
     handle_any_unknown_slot_choice := fun p =>
       (p, Raise (PyException "KeyError" "slot"));
     get_message := fun key => Raise (PyException "KeyError" key);
     disambiguation_available := true;
     process_disambiguation_response := fun p => (p, Ok None);
     analyze_request := fun p =>
       Ok {| should_disambiguate := String.eqb (inputTranscript p) "maybe";
             candidates := [VStr "A"; VStr "B"] |};
     handle_disambiguation := fun p _ => (p, Ok prompt) |}.

Definition unsure : LexRequest := request "OrderPizza" "maybe".

Definition disambiguating_config : Config :=
  {| session_attributes := ∅;
     package_name := Some "fulfillment_function";
     auto_initialize_messages := true;
     auto_handle_exceptions := false;
     error_message := None;
     enable_disambiguation := true |}.

End Sample.

(** * Properties *)

(** ** Channel selection and response assembly *)

Module FormattingProps.

Section Props.
Context `{Runtime} `{Installed}.

Lemma channel_table_lookup (key : string) :
  (<["lex" := LexChannel]> (<["sms" := SMSChannel]> ∅) : gmap string Channel)
    !! key
  = if decide (key = "sms") then Some SMSChannel
    else if decide (key = "lex") then Some LexChannel
    else None.
Proof.
  destruct (decide (key = "sms")) as [->|Hsms].
  - rewrite lookup_insert_ne by done. by rewrite lookup_insert_eq.
  - destruct (decide (key = "lex")) as [->|Hlex].
    + by rewrite lookup_insert_eq.
    + rewrite !lookup_insert_ne by done. apply lookup_empty.
Qed.

Lemma get_channel_cases (channel_string : string) :
  _get_channel channel_string
  = if decide (lower channel_string = "sms") then SMSChannel
    else LexChannel.
Proof.
  unfold _get_channel. rewrite channel_table_lookup.
  repeat case_decide; reflexivity.
Qed.

(** C10.  Channel selection is a total function of the channel name:
    the name is lower-cased and looked up among "sms" and "lex", so
    that the match ignores case, and every name that lower-cases to
    neither of the two selects the Lex channel; no name makes the
    selection fail. *)
Theorem get_channel_total (channel_string : string) :
  (lower channel_string = "sms" /\
   _get_channel channel_string = SMSChannel)
  \/ (lower channel_string = "lex" /\
      _get_channel channel_string = LexChannel)
  \/ (lower channel_string <> "sms" /\ lower channel_string <> "lex" /\
      _get_channel channel_string = LexChannel).
Proof.
  rewrite get_channel_cases.
  destruct (decide (lower channel_string = "sms")) as [Hs|Hs];
    [left; done|].
  destruct (decide (lower channel_string = "lex")) as [Hl|Hl];
    [right; left; done | right; right; done].
Qed.

(** Names that differ in case only select the same channel. *)
Lemma get_channel_ignores_case (s1 s2 : string) :
  lower s1 = lower s2 -> _get_channel s1 = _get_channel s2.
Proof. intros Heq. rewrite !get_channel_cases, Heq. reflexivity. Qed.

(** *** The loop over the messages *)

Lemma format_each_app (channel : Channel) (opts : list string)
    (todo acc : list LexMessage) :
  forallb has_formatter todo = true ->
  format_each channel opts todo acc
  = Ok (acc ++ List.map (rendered_by channel) todo).
Proof.
  revert acc. induction todo as [|m todo IH]; intros acc Hall; simpl.
  - by rewrite app_nil_r.
  - simpl in Hall. apply andb_true_iff in Hall as [Hm Hall].
    unfold has_formatter in Hm.
    destruct m; simpl in *; try discriminate;
      rewrite IH by done;
      unfold _format_plain_text, _format_ssml_text, _format_image_card,
        add_to_list;
      by rewrite <- app_assoc.
Qed.

Lemma format_each_no_formatter (channel : Channel) (opts : list string)
    (todo acc : list LexMessage) :
  forallb has_formatter todo = false ->
  format_each channel opts todo acc = Raise no_formatter.
Proof.
  revert acc. induction todo as [|m todo IH]; intros acc Hall; simpl in *.
  - discriminate.
  - destruct m; simpl in *; try (by apply IH); reflexivity.
Qed.

(** *** The single image card *)

(** The rewrite looks at the formatted list only. *)
Lemma special_handling_cases (formatted : list LexMessage) :
  (rewritten formatted (image_card_special_handling formatted))
  \/ ((length formatted <> 1%nat \/
       exists m, formatted = [m] /\ is_image_card m = false) /\
      image_card_special_handling formatted = formatted).
Proof.
  destruct formatted as [|m [|m' rest]].
  - right. split; [left; simpl; lia | reflexivity].
  - destruct m; simpl;
      try (right; split; [right; eexists; split; [reflexivity|done]
                         | reflexivity]).
    left. eexists. split; reflexivity.
  - right. split; [left; simpl; lia | by destruct m].
Qed.

(** C1, by evaluation.  A response whose only message is an image
    card, formatted for the channel named "sms": the list given to
    the response is the plain text of the card's title followed by
    the card with a blank title, whatever the SMS channel does. *)
Theorem single_card_rewritten_on_sms (card : ImageResponseCard)
    (response : LexResponse) :
  formatted_messages_of
    (set_messages [LexImageResponseCard card] response) "sms"
  = Ok [LexPlainText (title card);
        LexImageResponseCard (set_title " " card)].
Proof. reflexivity. Qed.

(** The rewrite does not depend on the channel at all. *)
Lemma single_card_rewritten_on_every_channel (card : ImageResponseCard)
    (response : LexResponse) (channel_string : string) :
  formatted_messages_of
    (set_messages [LexImageResponseCard card] response) channel_string
  = Ok [LexPlainText (title card);
        LexImageResponseCard (set_title " " card)].
Proof. reflexivity. Qed.

(** *** Session attributes *)

Lemma stringify_key_lookup (attrs : gmap string pyval) (key k : string) :
  stringify_key attrs key !! k
  = if decide (k = key) then coerce <$> attrs !! k else attrs !! k.
Proof.
  unfold stringify_key. case_decide as Hk.
  - subst k. destruct (attrs !! key) as [v|] eqn:Hv; simpl.
    + by rewrite lookup_insert_eq.
    + by rewrite Hv.
  - destruct (attrs !! key) as [v|] eqn:Hv; simpl; [|done].
    by rewrite lookup_insert_ne.
Qed.

Lemma stringify_keys_lookup (keys : list string)
    (attrs : gmap string pyval) (k : string) :
  NoDup keys ->
  foldl stringify_key attrs keys !! k
  = if decide (k ∈ keys) then coerce <$> attrs !! k else attrs !! k.
Proof.
  revert attrs. induction keys as [|key keys IH]; intros attrs Hnd.
  - simpl. destruct (decide (k ∈ [])) as [Hin|Hin];
      [by apply elem_of_nil in Hin | done].
  - apply NoDup_cons in Hnd as [Hnotin Hnd]. simpl.
    rewrite IH by done. rewrite !stringify_key_lookup.
    destruct (decide (k = key)) as [->|Hne].
    + rewrite decide_False by done.
      rewrite decide_True by (apply elem_of_cons; by left). done.
    + destruct (decide (k ∈ keys)) as [Hin|Hin].
      * rewrite decide_True by (apply elem_of_cons; by right). done.
      * rewrite decide_False; [done|].
        intros [?|?]%elem_of_cons; done.
Qed.

Lemma stringify_attributes_fmap (attrs : gmap string pyval) :
  stringify_attributes attrs = coerce <$> attrs.
Proof.
  apply map_eq. intros k. unfold stringify_attributes.
  rewrite stringify_keys_lookup by apply NoDup_fst_map_to_list.
  rewrite lookup_fmap. case_decide as Hin; [done|].
  destruct (attrs !! k) as [v|] eqn:Hv; [|done].
  exfalso. apply Hin. apply list_elem_of_fmap.
  exists (k, v). split; [done|]. by apply elem_of_map_to_list.
Qed.

(** C8.  If [format_for_channel] returns, the session attributes of
    its output are those of the dumped response, each replaced by
    its string form: the keys are the same, and every value is a
    string whatever the type of the input value. *)
Theorem session_attributes_stringified (response : LexResponse)
    (channel_string : string) (out : WireResponse) :
  format_for_channel response channel_string = Ok out ->
  sessionAttributes (wire_sessionState out)
  = coerce <$> dump_attributes (sessionAttributes (sessionState response))
  /\ dom (sessionAttributes (wire_sessionState out))
     = dom (dump_attributes (sessionAttributes (sessionState response)))
  /\ forall (k : string) (v : pyval),
       sessionAttributes (wire_sessionState out) !! k = Some v ->
       exists s, v = VStr s.
Proof.
  unfold format_for_channel.
  destruct (formatted_messages_of response channel_string)
    as [formatted|e]; [|discriminate].
  simpl. intros [= <-]. simpl.
  rewrite stringify_attributes_fmap.
  split; [reflexivity|]. split; [apply dom_fmap_L|].
  intros k v. rewrite lookup_fmap.
  destruct (_ !! k) as [w|]; simpl; [|discriminate].
  intros [= <-]. by eexists.
Qed.

(** *** Image cards *)

Lemma has_formatter_custom_payload (content : pyval)
    (ms : list LexMessage) :
  In (LexCustomPayload content) ms -> forallb has_formatter ms = false.
Proof.
  induction ms as [|m ms IH]; simpl; [done|].
  intros [->|Hin]; [reflexivity|].
  rewrite IH by done. apply andb_false_r.
Qed.

Lemma formatted_messages_of_cases (response : LexResponse)
    (channel_string : string) :
  (forallb has_formatter (messages response) = true /\
   formatted_messages_of response channel_string
   = Ok (image_card_special_handling
           (List.map (rendered_by (_get_channel channel_string))
              (messages response))))
  \/ (forallb has_formatter (messages response) = false /\
      formatted_messages_of response channel_string = Raise no_formatter).
Proof.
  unfold formatted_messages_of.
  destruct (forallb has_formatter (messages response)) eqn:Hall.
  - left. split; [done|]. by rewrite format_each_app.
  - right. split; [done|]. by rewrite format_each_no_formatter.
Qed.

(** C6, as the code has it.  In [format_for_channel] an image card
    is appended as it is, on every channel: the formatted list
    either is the rewrite of a response that consists of one image
    card, or has every image card of the response at its own
    position, unchanged.  The degraded plain text (title, subtitle
    and "Image: <url>" when set, and a "Buttons: " line when there
    are buttons, each button shown as "[<text> -> <value>]" and the
    buttons separated by a space, the parts separated by newlines)
    is what [LexChannel.format_image_card] returns, for every card:
    the last part of the statement writes that text out, with an
    empty subtitle or URL left out like a missing one. *)
Theorem image_card_passes_on_every_channel (response : LexResponse)
    (channel_string : string) (out : list LexMessage) :
  formatted_messages_of response channel_string = Ok out ->
  (rewritten (messages response) out
   \/ forall (i : nat) (card : ImageResponseCard),
        messages response !! i = Some (LexImageResponseCard card) ->
        out !! i = Some (LexImageResponseCard card))
  /\ (forall t c1 st c2 u b bs,
        format_image_card LexChannel
          {| title := t; subtitle := Some (String c1 st);
             imageUrl := Some (String c2 u); buttons := b :: bs |}
        = LexPlainText
            (t +:+ newline +:+ String c1 st +:+ newline +:+
             "Image: " +:+ String c2 u +:+ newline +:+
             "Buttons: " +:+ join " " (List.map button_text (b :: bs))))
  /\ (forall t,
        format_image_card LexChannel
          {| title := t; subtitle := None; imageUrl := None;
             buttons := [] |}
        = LexPlainText t)
  /\ (forall b, button_text b = "[" +:+ text b +:+ " -> " +:+ value b +:+ "]")
  /\ (forall card : ImageResponseCard,
        format_image_card LexChannel card
        = LexPlainText
            (String.concat (String "010"%char EmptyString)
               ([title card]
                ++ match subtitle card with
                   | Some (String c s) => [String c s]
                   | Some EmptyString | None => []
                   end
                ++ match imageUrl card with
                   | Some (String c u) => ["Image: " +:+ String c u]
                   | Some EmptyString | None => []
                   end
                ++ match buttons card with
                   | [] => []
                   | b :: bs =>
                       ["Buttons: " +:+
                        String.concat " "
                          (List.map
                             (fun btn =>
                                "[" +:+ text btn +:+ " -> " +:+ value btn +:+ "]")
                             (b :: bs))]
                   end))).
Proof.
  intros Hout.
  split; [|repeat split; try reflexivity;
           by intros [t [[|c s]|] [[|c' u]|] [|b bs]]].
  destruct (formatted_messages_of_cases response channel_string)
    as [[Hall Heq]|[_ Heq]]; rewrite Heq in Hout; [|discriminate].
  injection Hout as <-.
  set (formatted := List.map _ (messages response)).
  destruct (special_handling_cases formatted) as [Hrw|[_ Hsame]].
  - destruct Hrw as (card & Hin & Hrw).
    destruct (messages response) as [|m [|m' rest]] eqn:Hms;
      try discriminate.
    destruct m as [x|x|x|c0|x];
      try (right; intros [|i] c Hi; simplify_eq/=; fail).
    left. exists c0. split; [done|].
    subst formatted. simpl in *. by simplify_eq.
  - right. intros i card Hi. rewrite Hsame. subst formatted.
    change (List.map ?f ?l) with (f <$> l).
    by rewrite list_lookup_fmap, Hi.
Qed.

(** *** Custom payloads *)

(** C7, as the code has it.  [format_for_channel] has no formatter
    for a custom payload and raises on every response that holds
    one.  [LexChannel.format_custom_payload] returns the string form
    of the value under "text", or else of the value under
    "message", as a bare string when the content is a mapping with
    such a key, and in every other case a custom payload whose
    content is the string form of the original content. *)
Theorem custom_payload_formatting (content : pyval)
    (response : LexResponse) (channel_string : string) :
  (In (LexCustomPayload content) (messages response) ->
   format_for_channel response channel_string = Raise no_formatter)
  /\ (forall d v,
        content = VDict d -> dict_get "text" d = Some v ->
        format_custom_payload LexChannel content = RString (py_str v))
  /\ (forall d v,
        content = VDict d -> dict_get "text" d = None ->
        dict_get "message" d = Some v ->
        format_custom_payload LexChannel content = RString (py_str v))
  /\ ((forall d, content = VDict d ->
          dict_get "text" d = None /\ dict_get "message" d = None) ->
      format_custom_payload LexChannel content
      = RMessage (LexCustomPayload (VStr (py_str content)))).
Proof.
  repeat split.
  - intros Hin. unfold format_for_channel.
    destruct (formatted_messages_of_cases response channel_string)
      as [[Hall _]|[_ ->]]; [|reflexivity].
    by rewrite (has_formatter_custom_payload content) in Hall.
  - intros d v -> Ht. simpl. by rewrite Ht.
  - intros d v -> Ht Hm. simpl. by rewrite Ht, Hm.
  - intros Hnone. destruct content; try reflexivity.
    destruct (Hnone d eq_refl) as [Ht Hm]. simpl. by rewrite Ht, Hm.
Qed.
End Props.

End FormattingProps.

(** ** Intent resolution *)

Module ResolverProps.

(** *** Strings *)

Lemma app_cons (c : ascii) (r s : string) :
  String c r +:+ s = String c (r +:+ s).
Proof. reflexivity. Qed.

Lemma app_nil_r (s : string) : s +:+ EmptyString = s.
Proof. induction s as [|c s IH]; [done|]. by rewrite app_cons, IH. Qed.

Lemma app_assoc (a b c : string) : (a +:+ b) +:+ c = a +:+ b +:+ c.
Proof. induction a as [|x a IH]; [done|]. by rewrite !app_cons, IH. Qed.

Lemma prefix_nil (s : string) : String.prefix EmptyString s = true.
Proof. by destruct s. Qed.

Lemma prefix_separator (c : ascii) (r : string) :
  String.prefix "_" (String c r) = Ascii.eqb c "_".
Proof.
  change (String.prefix "_" (String c r))
    with (match ascii_dec "_" c with
          | left _ => String.prefix EmptyString r
          | right _ => false
          end).
  destruct (ascii_dec "_" c) as [<-|Hne].
  - by rewrite prefix_nil.
  - destruct (Ascii.eqb_spec c "_") as [->|_]; done.
Qed.

Lemma contains_separator (s : string) :
  str_contains "_" s
  = negb (all_chars (fun c => negb (Ascii.eqb c "_")) s).
Proof.
  induction s as [|c s IH]; [reflexivity|].
  change (str_contains "_" (String c s))
    with (String.prefix "_" (String c s) || str_contains "_" s).
  rewrite IH, prefix_separator. simpl all_chars.
  by destruct (Ascii.eqb c "_").
Qed.

Lemma upper_not_separator (c : ascii) :
  is_upper c = true -> Ascii.eqb c "_" = false.
Proof.
  intros Hup. destruct (Ascii.eqb_spec c "_") as [->|_]; [|done].
  vm_compute in Hup. discriminate.
Qed.

Lemma lower_word_chars (r : string) :
  all_chars word_char r = true -> lower r = r.
Proof.
  induction r as [|c r IH]; [done|]. simpl.
  intros [Hc Hr]%andb_true_iff. rewrite IH by done.
  unfold word_char in Hc. apply andb_true_iff in Hc as [Hc _].
  unfold lower_ascii. by destruct (is_upper c).
Qed.

Lemma snake_rest_word_chars (r s : string) :
  all_chars word_char r = true ->
  snake_rest (r +:+ s) = r +:+ snake_rest s.
Proof.
  induction r as [|c r IH]; [done|]. simpl.
  intros [Hc Hr]%andb_true_iff. rewrite !app_cons. simpl.
  rewrite IH by done.
  unfold word_char in Hc. apply andb_true_iff in Hc as [Hc _].
  by destruct (is_upper c).
Qed.

Lemma all_chars_app (p : ascii -> bool) (a b : string) :
  all_chars p (a +:+ b) = all_chars p a && all_chars p b.
Proof.
  induction a as [|c a IH]; [done|].
  rewrite app_cons. simpl. by rewrite IH, andb_assoc.
Qed.

(** *** Capitalized words *)

Lemma camel_case_cons (w : string) (ws : list string) :
  camel_case (w :: ws) = w +:+ camel_case ws.
Proof.
  unfold camel_case. destruct ws as [|w' ws]; simpl.
  - by rewrite app_nil_r.
  - reflexivity.
Qed.

Lemma join_cons (sep w : string) (ws : list string) :
  join sep (w :: ws)
  = w +:+ String.concat EmptyString (List.map (fun x => sep +:+ x) ws).
Proof.
  unfold join. revert w. induction ws as [|w' ws IH]; intros w.
  - simpl. by rewrite app_nil_r.
  - change (String.concat sep (w :: w' :: ws))
      with (w +:+ sep +:+ String.concat sep (w' :: ws)).
    rewrite IH. change (List.map ?f (w' :: ws)) with (f w' :: List.map f ws).
    fold (camel_case ((sep +:+ w') :: List.map (fun x => sep +:+ x) ws)).
    rewrite camel_case_cons. unfold camel_case. by rewrite app_assoc.
Qed.

Lemma capitalized_no_separator (ws : list string) :
  Forall (fun w => capitalized_word w = true) ws ->
  str_contains "_" (camel_case ws) = false.
Proof.
  intros Hws. rewrite contains_separator. apply negb_false_iff.
  induction Hws as [|w ws Hw _ IH]; [reflexivity|].
  rewrite camel_case_cons, all_chars_app, IH, andb_true_r.
  destruct w as [|c r]; [discriminate|]. simpl in *.
  apply andb_true_iff in Hw as [Hc Hr].
  rewrite upper_not_separator by done. simpl.
  clear -Hr. induction r as [|x r IH]; [done|]. simpl in *.
  apply andb_true_iff in Hr as [Hx Hr]. rewrite IH by done.
  unfold word_char in Hx. apply andb_true_iff in Hx as [_ ->]. done.
Qed.

Lemma snake_rest_camel_case (ws : list string) :
  Forall (fun w => capitalized_word w = true) ws ->
  snake_rest (camel_case ws)
  = String.concat EmptyString (List.map (fun x => "_" +:+ x) (List.map lower ws)).
Proof.
  induction 1 as [|w ws Hw _ IH]; [reflexivity|].
  rewrite camel_case_cons.
  destruct w as [|c r]; [discriminate|]. simpl in Hw.
  apply andb_true_iff in Hw as [Hc Hr].
  rewrite app_cons. simpl snake_rest. rewrite Hc.
  rewrite snake_rest_word_chars, IH by done.
  simpl List.map.
  fold (camel_case
          (("_" +:+ String (lower_ascii c) (lower r))
             :: List.map (fun x => "_" +:+ x) (List.map lower ws))).
  rewrite camel_case_cons. unfold camel_case.
  rewrite lower_word_chars by done. reflexivity.
Qed.

Lemma title_to_snake_camel_case (ws : list string) :
  Forall (fun w => capitalized_word w = true) ws ->
  title_to_snake (camel_case ws) = join "_" (List.map lower ws).
Proof.
  intros Hws. destruct Hws as [|w ws Hw Hws]; [reflexivity|].
  rewrite camel_case_cons. simpl List.map. rewrite join_cons.
  rewrite <- snake_rest_camel_case by done.
  destruct w as [|c r]; [discriminate|]. simpl in Hw.
  apply andb_true_iff in Hw as [Hc Hr].
  rewrite app_cons. simpl.
  rewrite snake_rest_word_chars, lower_word_chars by done.
  by rewrite app_cons.
Qed.

Section Props.
Context `{Importer}.

(** C5.  The module an intent name resolves to is the package,
    ".intents." and the normalized name: a name that holds the
    separator "_" is lower-cased as it is, and a name made of
    capitalized words is turned into its lower-cased words joined by
    the separator, as "OrderPizza" into "order_pizza" and
    "GetWeather" into "get_weather". *)
Theorem intent_name_normalized (package_name : option string) :
  (forall intent_name,
     str_contains "_" intent_name = true ->
     file_to_import intent_name package_name
     = default "fulfillment_function" package_name +:+ ".intents." +:+
       lower intent_name)
  /\ (forall intent_name,
        str_contains "_" intent_name = false ->
        file_to_import intent_name package_name
        = default "fulfillment_function" package_name +:+ ".intents." +:+
          title_to_snake intent_name)
  /\ (forall words,
        Forall (fun w => capitalized_word w = true) words ->
        file_to_import (camel_case words) package_name
        = default "fulfillment_function" package_name +:+ ".intents." +:+
          join "_" (List.map lower words))
  /\ file_to_import "OrderPizza" None
     = "fulfillment_function.intents.order_pizza"
  /\ file_to_import "GetWeather" None
     = "fulfillment_function.intents.get_weather".
Proof.
  repeat split.
  - intros n Hn. unfold file_to_import. by rewrite Hn.
  - intros n Hn. unfold file_to_import. by rewrite Hn.
  - intros ws Hws. unfold file_to_import.
    rewrite capitalized_no_separator by done.
    by rewrite title_to_snake_camel_case.
Qed.

(** C4, as the code has it.  When the module of the intent is found
    and has a [handler] function, that function is called with the
    request.  What it returns is returned; an [IntentNotFoundError]
    it raises is raised to the caller unchanged; any other exception
    it raises is not raised to the caller, and the response that
    [handle_exceptions] makes of it is returned. *)
Theorem handler_outcome (intent_name : string) (lex_request : LexRequest)
    (package_name : option string) (module : PyModule)
    (handler : IntentHandler) :
  import_module (file_to_import intent_name package_name) = Ok module ->
  handler_func module = Some handler ->
  call_handler_for_file intent_name lex_request package_name
  = match handler lex_request with
    | (lex_request', Ok response) => (lex_request', Ok response)
    | (lex_request', Raise (IntentNotFoundError m)) =>
        (lex_request', Raise (IntentNotFoundError m))
    | (lex_request', Raise e) =>
        (lex_request', Ok (handle_exceptions e lex_request' None))
    end.
Proof.
  intros Himp Hfun. unfold call_handler_for_file, resolve_and_call.
  rewrite Himp, Hfun. reflexivity.
Qed.

(** At this layer only an [IntentNotFoundError] leaves
    [call_handler_for_file] as an exception. *)
Lemma call_handler_raises_only_not_found (intent_name : string)
    (lex_request lex_request' : LexRequest)
    (package_name : option string) (e : exn) :
  call_handler_for_file intent_name lex_request package_name
  = (lex_request', Raise e) ->
  is_intent_not_found e = true.
Proof.
  unfold call_handler_for_file.
  destruct (resolve_and_call _ _ _) as [p [r|[]]]; intros [= <- <-] || intros [=];
    reflexivity.
Qed.
End Props.

End ResolverProps.

(** ** The orchestrator *)

Module HandlerProps.

Section Props.
Context `{Runtime} `{Installed} `{Importer} `{Collaborators}.

Variable config : Config.

(** *** The handler chain *)

Lemma run_handlers_declined (chain rest : list ChainHandler)
    (p p' : LexRequest) :
  Declined chain p p' ->
  run_handlers (chain ++ rest) p None = run_handlers rest p' None.
Proof.
  induction 1 as [p|h chain p p1 p' Hh _ IH|h chain p p1 p' e Hh He _ IH];
    simpl.
  - reflexivity.
  - by rewrite Hh.
  - rewrite Hh. by destruct e.
Qed.

Lemma first_response_declined (chain rest : list ChainHandler)
    (lex_intent_name : string) (p p' : LexRequest) :
  Declined chain p p' ->
  first_response (chain ++ rest) lex_intent_name p
  = first_response rest lex_intent_name p'.
Proof.
  intros Hd. unfold first_response. by rewrite (run_handlers_declined _ _ p p').
Qed.

Lemma first_response_raise (h : ChainHandler) (rest : list ChainHandler)
    (lex_intent_name : string) (p p' : LexRequest) (e : exn) :
  h p = (p', Raise e) ->
  first_response (h :: rest) lex_intent_name p
  = if is_intent_not_found e then (p', Raise e)
    else first_response rest lex_intent_name p'.
Proof.
  intros Hh. unfold first_response. simpl. rewrite Hh.
  by destruct e.
Qed.

(** C3, as the code has it.  In the chain, a handler reached after
    the handlers before it declined and raising
    [IntentNotFoundError] ends the chain with that exception; a
    handler raising anything else declines, and the chain goes on
    with the handlers after it, also when it is the last one: the
    chain then has no response and ends with the error "Unable to
    find handler for intent", which [_main_handler] hands to
    [handle_exceptions]; the exception of the last handler is not the
    one that leaves the chain. *)
Theorem chain_exceptions (before after : list ChainHandler)
    (h : ChainHandler) (lex_intent_name : string)
    (p p1 p2 : LexRequest) (e : exn) :
  Declined before p p1 ->
  h p1 = (p2, Raise e) ->
  (is_intent_not_found e = true ->
   first_response (before ++ h :: after) lex_intent_name p
   = (p2, Raise e))
  /\ (is_intent_not_found e = false ->
      first_response (before ++ h :: after) lex_intent_name p
      = first_response after lex_intent_name p2)
  /\ (is_intent_not_found e = false ->
      first_response (before ++ [h]) lex_intent_name p
      = (p2, Raise (no_handler lex_intent_name)))
  /\ (is_intent_not_found e = false ->
      forall lex_intent,
        get_intent p = Ok lex_intent ->
        turn_response config (before ++ [h]) p
        = Ok (handle_exceptions (no_handler (name lex_intent)) p2 None)).
Proof.
  intros Hd Hh.
  assert (Hlast : forall n,
    is_intent_not_found e = false ->
    first_response (before ++ [h]) n p = (p2, Raise (no_handler n))).
  { intros n He.
    rewrite (first_response_declined _ _ _ p p1) by done.
    rewrite (first_response_raise _ _ _ p1 p2 e) by done.
    by rewrite He. }
  repeat split; intros He.
  - rewrite (first_response_declined _ _ _ p p1) by done.
    rewrite (first_response_raise _ _ _ p1 p2 e) by done.
    by rewrite He.
  - rewrite (first_response_declined _ _ _ p p1) by done.
    rewrite (first_response_raise _ _ _ p1 p2 e) by done.
    by rewrite He.
  - by apply Hlast.
  - intros lex_intent Hi. unfold turn_response, dispatch.
    by rewrite Hi, Hlast.
Qed.

(** *** The callback *)

Lemma forwarded_no_callback (response : LexResponse) (p : LexRequest) :
  req_requestAttributes (forwarded response p) ≫= (.!! "callback") = None.
Proof.
  simpl. destruct (requestAttributes response) as [attrs|]; simpl; [|done].
  apply lookup_delete_eq.
Qed.

(** C2, as the code has it.  When the first response carries a
    [callback] request attribute, the intent it names is resolved
    and called with the session state of the first response and with
    request attributes that no longer hold the callback.  When that
    call returns a response, the response of the turn is this
    second response with the messages of the first in front of its
    own: its session state and its request attributes are those of
    the second response. *)
Theorem callback_redispatch (chain : list ChainHandler)
    (p p1 p2 : LexRequest) (lex_intent : Intent)
    (first second : LexResponse) (callback_name : string) :
  get_intent p = Ok lex_intent ->
  first_response chain (name lex_intent) p = (p1, Ok first) ->
  requestAttributes first ≫= (.!! "callback") = Some callback_name ->
  call_handler_for_file callback_name (forwarded first p1)
    (package_name config) = (p2, Ok second) ->
  req_sessionState (forwarded first p1) = sessionState first
  /\ req_requestAttributes (forwarded first p1) ≫= (.!! "callback") = None
  /\ exists final,
       turn_response config chain p = Ok final /\
       messages final = messages first ++ messages second /\
       sessionState final = sessionState second /\
       requestAttributes final = requestAttributes second.
Proof.
  intros Hi Hfirst Hcb Hcall.
  split; [reflexivity|]. split; [apply forwarded_no_callback|].
  exists (set_messages (messages first ++ messages second) second).
  split; [|done].
  unfold turn_response, dispatch. rewrite Hi, Hfirst.
  unfold callback_dispatch. rewrite Hcb.
  change (set_req_requestAttributes _
            (set_req_requestAttributes _
               (set_req_sessionState (sessionState first) p1)))
    with (forwarded first p1).
  by rewrite Hcall.
Qed.

(** *** The outermost boundary *)

Lemma format_fallback (e : exn) (lex_request : LexRequest)
    (configured : option string) :
  exists out,
    format_for_channel (handle_exceptions e lex_request configured) "lex"
    = Ok out /\
    closing_fallback (default generic_apology configured) out.
Proof.
  unfold format_for_channel.
  destruct (FormattingProps.formatted_messages_of_cases
              (handle_exceptions e lex_request configured) "lex")
    as [[_ ->]|[Hno _]]; [|discriminate].
  eexists. split; [reflexivity|].
  rewrite FormattingProps.get_channel_cases.
  split; reflexivity.
Qed.

Lemma minimal_response_explicit :
  _create_minimal_error_response config
  = {| wire_sessionState :=
         {| dialogAction := Some {| type := "Close" |};
            intent :=
              Some {| name := "FallbackIntent"; state := Some "Failed";
                      slots := ∅ |};
            sessionAttributes := ∅;
            activeContexts := None |};
       wire_messages :=
         [{| contentType := "PlainText";
             wire_content :=
               Some (VStr
                 match error_message config with
                 | Some (String c key) =>
                     match get_message (String c key) with
                     | Ok m => m
                     | Raise _ => String c key
                     end
                 | Some EmptyString | None =>
                     "I'm sorry, I encountered an error while processing your request. Please try again."
                 end);
             wire_imageResponseCard := None |}];
       wire_requestAttributes := None |}.
Proof.
  unfold _create_minimal_error_response.
  destruct (error_message config) as [[|c key]|]; reflexivity.
Qed.

(** C9.  With automatic exception handling on, as it is by default,
    [handler] returns a response for every event.  When processing
    the event raises, the response is a closing fallback with an
    apology: made by [handle_exceptions] and formatted for the Lex
    channel when the event can be parsed into a request, and
    otherwise the minimal response, which does not depend on the
    event and is not passed through [format_for_channel].  The
    minimal response is written out in the statement: it closes the
    dialog, names the intent "FallbackIntent" in state "Failed", has
    no session attributes and one plain-text message; that message is
    the fixed apology when no error message is configured or the
    configured one is empty, what [get_message] returns for the
    configured key when it returns, and the configured key itself
    when [get_message] raises. *)
Theorem exceptions_become_fallback (event : pyval) :
  auto_handle_exceptions config = true ->
  (forall attrs, auto_handle_exceptions (default_config attrs) = true)
  /\ (exists out, handler config event = Ok out)
  /\ (forall e,
        _handle_request_with_auto_exception_handling config event
        = Raise e ->
        exists out apology,
          handler config event = Ok out /\
          closing_fallback apology out /\
          (forall lex_request,
             LexRequest_of_event event = Ok lex_request ->
             format_for_channel
               (handle_exceptions e lex_request (error_message config))
               "lex" = Ok out /\
             apology = default generic_apology (error_message config)) /\
          (forall e',
             LexRequest_of_event event = Raise e' ->
             out = _create_minimal_error_response config /\
             sessionAttributes (wire_sessionState out) = ∅ /\
             apology
             = match error_message config with
               | Some (String c key) =>
                   match get_message (String c key) with
                   | Ok m => m
                   | Raise _ => String c key
                   end
               | Some EmptyString | None =>
                   "I'm sorry, I encountered an error while processing your request. Please try again."
               end /\
             out
             = {| wire_sessionState :=
                    {| dialogAction := Some {| type := "Close" |};
                       intent :=
                         Some {| name := "FallbackIntent";
                                 state := Some "Failed"; slots := ∅ |};
                       sessionAttributes := ∅;
                       activeContexts := None |};
                  wire_messages :=
                    [{| contentType := "PlainText";
                        wire_content := Some (VStr apology);
                        wire_imageResponseCard := None |}];
                  wire_requestAttributes := None |})).
Proof.
  intros Hauto.
  split; [reflexivity|].
  assert (Hraise : forall e,
    _handle_request_with_auto_exception_handling config event = Raise e ->
    exists out apology,
      handler config event = Ok out /\
      closing_fallback apology out /\
      (forall lex_request,
         LexRequest_of_event event = Ok lex_request ->
         format_for_channel
           (handle_exceptions e lex_request (error_message config))
           "lex" = Ok out /\
         apology = default generic_apology (error_message config)) /\
      (forall e',
         LexRequest_of_event event = Raise e' ->
         out = _create_minimal_error_response config /\
         sessionAttributes (wire_sessionState out) = ∅ /\
         apology
         = match error_message config with
           | Some (String c key) =>
               match get_message (String c key) with
               | Ok m => m
               | Raise _ => String c key
               end
           | Some EmptyString | None =>
               "I'm sorry, I encountered an error while processing your request. Please try again."
           end /\
         out
         = {| wire_sessionState :=
                {| dialogAction := Some {| type := "Close" |};
                   intent :=
                     Some {| name := "FallbackIntent";
                             state := Some "Failed"; slots := ∅ |};
                   sessionAttributes := ∅;
                   activeContexts := None |};
              wire_messages :=
                [{| contentType := "PlainText";
                    wire_content := Some (VStr apology);
                    wire_imageResponseCard := None |}];
              wire_requestAttributes := None |})).
  { intros e He. unfold handler. rewrite Hauto, He.
    destruct (LexRequest_of_event event) as [lex_request|e'].
    - destruct (format_fallback e lex_request (error_message config))
        as (out & Hout & Hclose).
      exists out, (default generic_apology (error_message config)).
      split; [exact Hout|]. split; [exact Hclose|]. split.
      + intros lex_request' [= <-]. by split.
      + intros e' [=].
    - eexists _, _. split; [reflexivity|].
      rewrite minimal_response_explicit.
      split; [by split|]. split.
      + intros lex_request [=].
      + intros e'' _. by repeat split. }
  split; [|exact Hraise].
  destruct (_handle_request_with_auto_exception_handling config event)
    as [out|e] eqn:Hin.
  - exists out. unfold handler. by rewrite Hauto, Hin.
  - destruct (Hraise e eq_refl) as (out & _ & Hout & _). by exists out.
Qed.
End Props.

End HandlerProps.

(** ** The Lex channel, the assembly, the resolver and the chain: further
    properties *)

Module LexChannelProps.

Import ResolverProps.

Lemma prefix_refl_app (a b : string) : String.prefix a (a +:+ b) = true.
Proof.
  induction a as [|c a IH]; [apply prefix_nil|].
  rewrite app_cons. simpl. destruct (ascii_dec c c); [exact IH|done].
Qed.

Lemma length_app (a b : string) :
  String.length (a +:+ b) = (String.length a + String.length b)%nat.
Proof.
  induction a as [|c a IH]; [done|]. rewrite app_cons. simpl. by rewrite IH.
Qed.

Lemma length_join_cons (sep w : string) (ws : list string) :
  String.length (join sep (w :: ws))
  = (String.length w
     + list_sum (List.map (fun x => String.length sep + String.length x) ws))%nat.
Proof.
  rewrite join_cons, length_app. f_equal.
  induction ws as [|x ws IH]; [done|].
  change (List.map ?f (x :: ws)) with (f x :: List.map f ws).
  fold (camel_case ((sep +:+ x) :: List.map (fun y => sep +:+ y) ws)).
  rewrite camel_case_cons, length_app, length_app. unfold camel_case.
  rewrite IH. simpl. lia.
Qed.

Section Props.
Context `{Runtime} `{Hierarchy}.

Lemma image_card_parts_head (card : ImageResponseCard) :
  exists rest, image_card_parts card = title card :: rest
               /\ (rest = [] <-> bare card = true).
Proof.
  unfold image_card_parts, bare. eexists. split; [reflexivity|].
  destruct (truthy (subtitle card)), (truthy (imageUrl card)),
    (buttons card); simpl; split; intros; done.
Qed.

(** X1.  The plain text [LexChannel.format_image_card] makes of a card
    begins with the title of the card, and it is the title alone exactly
    when the card has no subtitle and no image to show (unset or empty)
    and no buttons. *)
Theorem image_card_text_title (card : ImageResponseCard) :
  exists text,
    format_image_card LexChannel card = LexPlainText text
    /\ String.prefix (title card) text = true
    /\ (text = title card <-> bare card = true).
Proof.
  destruct (image_card_parts_head card) as (rest & Hparts & Hrest).
  exists (join newline (image_card_parts card)). split; [reflexivity|].
  rewrite Hparts. split.
  - rewrite join_cons. apply prefix_refl_app.
  - rewrite <- Hrest. split.
    + intros Heq. apply (f_equal String.length) in Heq.
      rewrite length_join_cons in Heq.
      destruct rest as [|x rest]; [done|]. simpl in Heq. lia.
    + intros ->. unfold join. reflexivity.
Qed.

(** X2.  When [LexChannel.format_custom_payload] re-wraps a payload,
    the new content is the string form of the old one, and formatting
    the re-wrapped payload again gives the same payload: a string
    content is never unwrapped. *)
Theorem custom_payload_rewrap_stable (content : pyval) (m : LexMessage) :
  format_custom_payload LexChannel content = RMessage m ->
  exists s,
    m = LexCustomPayload (VStr s)
    /\ s = py_str content
    /\ format_custom_payload LexChannel (VStr s) = RMessage m.
Proof.
  simpl. unfold lex_format_custom_payload.
  destruct content; try (intros [= <-]; eexists; repeat split; fail).
  destruct (dict_get "text" d); [discriminate|].
  destruct (dict_get "message" d); [discriminate|].
  intros [= <-]. eexists. repeat split.
Qed.

(** X3.  [LexChannel.format_messages] gives one result per message,
    in order; an image card becomes the plain text of
    [format_image_card], and no result is an image card. *)
Theorem format_messages_degrades_cards (messages : list LexMessage) :
  length (format_messages messages) = length messages
  /\ (forall (i : nat) (card : ImageResponseCard),
        messages !! i = Some (LexImageResponseCard card) ->
        format_messages messages !! i
        = Some (RMessage (format_image_card LexChannel card)))
  /\ (forall r card,
        In r (format_messages messages) ->
        r <> RMessage (LexImageResponseCard card)).
Proof.
  unfold format_messages. split; [apply length_map|]. split.
  - intros i card Hi. change (List.map ?f ?l) with (f <$> l).
    by rewrite list_lookup_fmap, Hi.
  - intros r card Hin. apply in_map_iff in Hin as (m & <- & _).
    destruct m as [c|c|c|c|c]; simpl; try discriminate.
    + by destruct PlainText_isa_LexPlainText.
    + unfold lex_format_custom_payload.
      destruct c; try discriminate.
      destruct (dict_get "text" d); [discriminate|].
      destruct (dict_get "message" d); discriminate.
Qed.
End Props.

End LexChannelProps.

Module AssemblyProps.

Import FormattingProps.

Section Props.
Context `{Runtime} `{Installed}.

Lemma format_raises_no_formatter (response : LexResponse)
    (channel_string : string) (e : exn) :
  format_for_channel response channel_string = Raise e -> e = no_formatter.
Proof.
  unfold format_for_channel.
  destruct (formatted_messages_of_cases response channel_string)
    as [[_ ->]|[_ ->]]; [discriminate|]. by intros [= <-].
Qed.

Lemma format_returns (response : LexResponse) (channel_string : string) :
  forallb has_formatter (messages response) = true ->
  exists out, format_for_channel response channel_string = Ok out.
Proof.
  intros Hall. unfold format_for_channel.
  destruct (formatted_messages_of_cases response channel_string)
    as [[_ ->]|[Hno _]]; [eauto|congruence].
Qed.

Lemma special_handling_length (formatted : list LexMessage) :
  length (image_card_special_handling formatted) = length formatted
  \/ (length formatted = 1%nat
      /\ length (image_card_special_handling formatted) = 2%nat).
Proof.
  destruct (special_handling_cases formatted) as [(c & -> & ->)|[_ ->]].
  - right. done.
  - by left.
Qed.

(** X5.  [format_for_channel] returns as many messages as the response
    has, or two for a response of one message (the single image
    card); it never drops a message. *)
Theorem message_count (response : LexResponse) (channel_string : string)
    (out : WireResponse) :
  format_for_channel response channel_string = Ok out ->
  length (wire_messages out) = length (messages response)
  \/ (length (messages response) = 1%nat
      /\ length (wire_messages out) = 2%nat).
Proof.
  unfold format_for_channel.
  destruct (formatted_messages_of_cases response channel_string)
    as [[Hall ->]|[Hall ->]]; [|discriminate].
  intros [= <-]. simpl. rewrite length_map.
  set (formatted := List.map _ (messages response)).
  assert (Hlen : length formatted = length (messages response))
    by apply length_map.
  destruct (special_handling_length formatted) as [->|[H1 ->]].
  - by left.
  - right. by rewrite <- Hlen.
Qed.

(** X6.  The single image card rewrite does not apply to its own
    result: doing it twice is doing it once. *)
Theorem special_handling_idempotent (formatted : list LexMessage) :
  image_card_special_handling (image_card_special_handling formatted)
  = image_card_special_handling formatted.
Proof.
  destruct (special_handling_cases formatted) as [(c & -> & ->)|[_ Hsame]].
  - reflexivity.
  - by rewrite !Hsame.
Qed.

Lemma coerce_idempotent (v : pyval) : coerce (coerce v) = coerce v.
Proof. reflexivity. Qed.

(** X7.  [_stringify_session_attributes] changes nothing in a response
    it has already been applied to. *)
Theorem stringify_idempotent (dumped : WireResponse) :
  _stringify_session_attributes (_stringify_session_attributes dumped)
  = _stringify_session_attributes dumped.
Proof.
  unfold _stringify_session_attributes. simpl.
  rewrite !stringify_attributes_fmap.
  rewrite <- map_fmap_compose.
  f_equal.
Qed.

(** X8.  In the output of [format_for_channel] a session attribute
    that is a string has its value unchanged, an attribute that is
    [None] is absent, and the dialog action, the intent, the active
    contexts and the request attributes are those of the response. *)
Theorem formatting_keeps_the_rest (response : LexResponse)
    (channel_string : string) (out : WireResponse) :
  format_for_channel response channel_string = Ok out ->
  (forall k s,
     sessionAttributes (sessionState response) !! k = Some (VStr s) ->
     sessionAttributes (wire_sessionState out) !! k = Some (VStr s))
  /\ (forall k,
        sessionAttributes (sessionState response) !! k = Some VNone ->
        sessionAttributes (wire_sessionState out) !! k = None)
  /\ dialogAction (wire_sessionState out) = dialogAction (sessionState response)
  /\ intent (wire_sessionState out) = intent (sessionState response)
  /\ activeContexts (wire_sessionState out)
     = activeContexts (sessionState response)
  /\ wire_requestAttributes out = requestAttributes response.
Proof.
  unfold format_for_channel.
  destruct (formatted_messages_of response channel_string)
    as [formatted|e]; [|discriminate].
  intros [= <-]. simpl. rewrite stringify_attributes_fmap.
  repeat split.
  - intros k s Hk. rewrite lookup_fmap. unfold dump_attributes.
    rewrite (map_lookup_filter_Some_2 _ _ k (VStr s)) by done. reflexivity.
  - intros k Hk. rewrite lookup_fmap. unfold dump_attributes.
    rewrite map_lookup_filter_None_2; [done|].
    right. intros v Hv. rewrite Hk in Hv. injection Hv as <-. done.
Qed.
End Props.

End AssemblyProps.

Module ResolutionProps.

Import ResolverProps.

Lemma lower_keeps_separator (s : string) :
  str_contains "_" (lower s) = str_contains "_" s.
Proof.
  rewrite !contains_separator. f_equal.
  induction s as [|c s IH]; [done|]. simpl. rewrite IH. f_equal. f_equal.
  unfold lower_ascii. destruct (is_upper c) eqn:Hup; [|done].
  rewrite (upper_not_separator c Hup).
  destruct c as [[] [] [] [] [] [] [] []]; vm_compute in Hup |- *; congruence.
Qed.

Lemma lower_idempotent (s : string) : lower (lower s) = lower s.
Proof.
  induction s as [|c s IH]; [done|]. simpl. rewrite IH. f_equal.
  destruct c as [[] [] [] [] [] [] [] []]; reflexivity.
Qed.

Section Props.
Context `{Importer}.

(** X9.  Intent names that hold the separator and differ in case only
    resolve to the same module, which is also the module of the
    lower-cased name. *)
Theorem separator_names_ignore_case (a b : string)
    (package_name : option string) :
  str_contains "_" a = true ->
  lower a = lower b ->
  file_to_import a package_name = file_to_import b package_name
  /\ file_to_import (lower a) package_name = file_to_import a package_name.
Proof.
  intros Ha Hab.
  assert (Hb : str_contains "_" b = true).
  { rewrite <- lower_keeps_separator, <- Hab, lower_keeps_separator. done. }
  unfold file_to_import.
  rewrite Ha, Hb, lower_keeps_separator, Ha, lower_idempotent, Hab. done.
Qed.

(** X10.  When the module of the intent cannot be imported,
    [call_handler_for_file] raises [IntentNotFoundError] with the fixed
    text "Unable to find handler for intent" and leaves the request as
    it was.  When the module is found and has no [handler] function,
    nothing is raised: the [ValueError] goes to [handle_exceptions],
    whose response is returned. *)
Theorem resolution_failures (intent_name : string) (lex_request : LexRequest)
    (package_name : option string) :
  (forall m,
     import_module (file_to_import intent_name package_name)
     = Raise (ImportError m) ->
     call_handler_for_file intent_name lex_request package_name
     = (lex_request,
        Raise (IntentNotFoundError "Unable to find handler for intent")))
  /\ (forall module,
        import_module (file_to_import intent_name package_name) = Ok module ->
        handler_func module = None ->
        call_handler_for_file intent_name lex_request package_name
        = (lex_request,
           Ok (handle_exceptions
                 (missing_handler (file_to_import intent_name package_name))
                 lex_request None))).
Proof.
  unfold call_handler_for_file, resolve_and_call. split.
  - intros m ->. reflexivity.
  - intros module -> ->. reflexivity.
Qed.

(** X11.  An exception that leaves [call_handler_for_file] is an
    [IntentNotFoundError], and it comes from one of three places: the
    import failed with an [ImportError], the import itself raised it,
    or the handler of the intent raised it. *)
Theorem resolver_raises (intent_name : string)
    (lex_request lex_request' : LexRequest) (package_name : option string)
    (e : exn) :
  call_handler_for_file intent_name lex_request package_name
  = (lex_request', Raise e) ->
  is_intent_not_found e = true
  /\ ((exists m,
         import_module (file_to_import intent_name package_name)
         = Raise (ImportError m)
         /\ e = IntentNotFoundError "Unable to find handler for intent"
         /\ lex_request' = lex_request)
      \/ (import_module (file_to_import intent_name package_name) = Raise e
          /\ lex_request' = lex_request)
      \/ (exists module handler,
            import_module (file_to_import intent_name package_name)
            = Ok module
            /\ handler_func module = Some handler
            /\ handler lex_request = (lex_request', Raise e))).
Proof.
  unfold call_handler_for_file, resolve_and_call.
  destruct (import_module (file_to_import intent_name package_name))
    as [module|e0] eqn:Himp.
  - destruct (handler_func module) as [handler|] eqn:Hfun; [|discriminate].
    destruct (handler lex_request) as [q [r|e1]] eqn:Hh; [discriminate|].
    destruct e1; try discriminate. intros [= <- <-].
    split; [reflexivity|]. right. right. by exists module, handler.
  - destruct e0; try discriminate.
    + intros [= <- <-]. split; [reflexivity|]. right. by left.
    + intros [= <- <-]. split; [reflexivity|]. left. by exists msg.
Qed.
End Props.

End ResolutionProps.

Module ChainProps.

Import HandlerProps.

Section Props.
Context `{Runtime} `{Installed} `{Importer} `{Collaborators}.

Variable config : Config.

(** X12.  The first handler of the chain that returns a response ends
    the chain: the response is that handler's, whatever the handlers
    after it would do. *)
Theorem first_accepted_wins (before after : list ChainHandler)
    (h : ChainHandler) (lex_intent_name : string)
    (p p1 p2 : LexRequest) (response : LexResponse) :
  Declined before p p1 ->
  h p1 = (p2, Ok (Some response)) ->
  first_response (before ++ h :: after) lex_intent_name p = (p2, Ok response).
Proof.
  intros Hd Hh. rewrite (first_response_declined _ _ _ p p1) by done.
  unfold first_response. simpl. by rewrite Hh.
Qed.

(** X13.  When every handler of the chain declines, and so too when the
    chain is empty, the chain ends with the error "Unable to find
    handler for intent: <name>". *)
Theorem all_declined (chain : list ChainHandler) (lex_intent_name : string)
    (p p' : LexRequest) :
  Declined chain p p' ->
  first_response chain lex_intent_name p
  = (p', Raise (no_handler lex_intent_name)).
Proof.
  intros Hd. rewrite <- (app_nil_r chain).
  by rewrite (first_response_declined _ _ _ p p').
Qed.

(** X14.  An exception that leaves the chain is an
    [IntentNotFoundError] or the error that no handler was found;
    nothing else a handler raises gets out. *)
Theorem chain_raises (chain : list ChainHandler) (lex_intent_name : string)
    (p p' : LexRequest) (e : exn) :
  first_response chain lex_intent_name p = (p', Raise e) ->
  is_intent_not_found e = true \/ e = no_handler lex_intent_name.
Proof.
  unfold first_response. revert p.
  induction chain as [|h chain IH]; intros p; simpl.
  - intros [= _ <-]. by right.
  - destruct (h p) as [p1 [[r|]|e1]].
    + discriminate.
    + apply IH.
    + destruct e1; try apply IH. intros [= _ <-]. by left.
Qed.

(** X17.  When disambiguation is not enabled, or its components are not
    available, the chain is [regular_intent_handler] alone, the
    disambiguation handler declines without touching the request, and
    the chain succeeds or fails as the regular handler does. *)
Theorem disambiguation_off (p : LexRequest) :
  enable_disambiguation config && disambiguation_available = false ->
  handlers config = [regular_intent_handler config]
  /\ disambiguation_intent_handler config p = (p, Ok None)
  /\ forall n,
       first_response (handlers config) n p
       = match regular_intent_handler config p with
         | (p', Ok (Some r)) => (p', Ok r)
         | (p', Ok None) => (p', Raise (no_handler n))
         | (p', Raise e) =>
             (p', Raise (if is_intent_not_found e then e else no_handler n))
         end.
Proof.
  intros Hoff.
  assert (Hh : handlers config = [regular_intent_handler config]).
  { unfold handlers, disambiguation_handler_set. by rewrite Hoff. }
  split; [exact Hh|]. split.
  - unfold disambiguation_intent_handler, disambiguation_handler_set.
    by rewrite Hoff.
  - intros n. rewrite Hh. unfold first_response. simpl.
    destruct (regular_intent_handler config p) as [p' [[r|]|e]]; try done.
    by destruct e.
Qed.

(** X18.  [disambiguation_intent_handler] answers a turn in two cases
    only: the turn completes a pending disambiguation, or the analysis
    asks for disambiguation and offers at least one candidate.  An
    analysis without candidates never leads to a prompt. *)
Theorem disambiguation_answers (p p' : LexRequest) (response : LexResponse) :
  disambiguation_intent_handler config p = (p', Ok (Some response)) ->
  enable_disambiguation config = true
  /\ (process_disambiguation_response p = (p', Ok (Some response))
      \/ exists p1 analysis,
           process_disambiguation_response p = (p1, Ok None)
           /\ analyze_request p1 = Ok analysis
           /\ should_disambiguate analysis = true
           /\ candidates analysis <> []
           /\ handle_disambiguation p1 (candidates analysis)
              = (p', Ok response)).
Proof.
  unfold disambiguation_intent_handler, disambiguation_handler_set.
  destruct (enable_disambiguation config); simpl; [|discriminate].
  destruct disambiguation_available; simpl; [|discriminate].
  destruct (process_disambiguation_response p) as [p1 [[r|]|e]] eqn:Hp;
    [| |discriminate].
  - intros [= <- <-]. split; [done|]. by left.
  - destruct (analyze_request p1) as [a|e] eqn:Ha; [|discriminate].
    destruct (should_disambiguate a) eqn:Hs; [|discriminate].
    destruct (candidates a) as [|c cs] eqn:Hc; [discriminate|].
    destruct (handle_disambiguation p1 (c :: cs)) as [p2 [r|e]] eqn:Hd;
      [|discriminate].
    intros [= <- <-]. split; [done|]. right.
    exists p1, a. rewrite Hc. repeat split; try done.
Qed.

Lemma set_messages_same (r : LexResponse) : set_messages (messages r) r = r.
Proof. by destruct r. Qed.

(** X19.  When the first response has no [callback] request attribute
    (no attributes at all, or none under that key), the response of the
    turn is the first response as it is, and the request takes its
    session state and request attributes. *)
Theorem no_callback_no_change (chain : list ChainHandler)
    (p p1 : LexRequest) (lex_intent : Intent) (first : LexResponse) :
  get_intent p = Ok lex_intent ->
  first_response chain (name lex_intent) p = (p1, Ok first) ->
  requestAttributes first ≫= (.!! "callback") = None ->
  turn_response config chain p = Ok first
  /\ dispatch config chain p
     = (set_req_requestAttributes (requestAttributes first)
          (set_req_sessionState (sessionState first) p1),
        Ok first).
Proof.
  intros Hi Hf Hcb. unfold turn_response, dispatch.
  rewrite Hi, Hf. unfold callback_dispatch. rewrite Hcb.
  by rewrite set_messages_same.
Qed.

Lemma routed_intent (n : string) (p : LexRequest) :
  intent (req_sessionState (routed n p)) = intent (req_sessionState p).
Proof. unfold routed. by destruct (negb _). Qed.

Lemma routed_lex_intent (n : string) (p : LexRequest) :
  sessionAttributes (req_sessionState (routed n p))
  = <["lex_intent" := VStr n]> (sessionAttributes (req_sessionState p)).
Proof. unfold routed. by destruct (negb _). Qed.

Lemma regular_handler_routed (p : LexRequest) (i : Intent) :
  get_intent p = Ok i ->
  regular_intent_handler config p
  = match any_unknown_slot_choices (routed (name i) p) with
    | Raise e => (routed (name i) p, Raise e)
    | Ok true =>
        match handle_any_unknown_slot_choice (routed (name i) p) with
        | (p', Raise e) => (p', Raise e)
        | (p', Ok r) => (p', Ok (Some r))
        end
    | Ok false =>
        match intent (req_sessionState p) with
        | None => (routed (name i) p, Raise no_intent)
        | Some i' =>
            match call_handler_for_file (name i') (routed (name i) p)
                    (package_name config) with
            | (p', Raise e) => (p', Raise e)
            | (p', Ok r) => (p', Ok (Some r))
            end
        end
    end.
Proof.
  intros Hi. unfold regular_intent_handler. rewrite Hi.
  change (set_req_sessionState _ p) with (routed (name i) p).
  by rewrite routed_intent.
Qed.

(** X16.  Before it turns to the slot choices and to the handler of the
    intent, [regular_intent_handler] stores the intent name under
    [lex_intent], leaving the other session attributes, and replaces the
    active contexts by the one context [transition_to_exit], unless the
    name holds "Common_Exit_Feedback"; the rest of the request is
    untouched, and the slot check and the handler get this request. *)
Theorem regular_handler_prepares (p : LexRequest) (i : Intent) :
  get_intent p = Ok i ->
  let q := routed (name i) p in
  sessionAttributes (req_sessionState q)
  = <["lex_intent" := VStr (name i)]> (sessionAttributes (req_sessionState p))
  /\ activeContexts (req_sessionState q)
     = (if str_contains "Common_Exit_Feedback" (name i)
        then activeContexts (req_sessionState p)
        else Some [transition_to_exit])
  /\ intent (req_sessionState q) = intent (req_sessionState p)
  /\ dialogAction (req_sessionState q) = dialogAction (req_sessionState p)
  /\ req_requestAttributes q = req_requestAttributes p
  /\ regular_intent_handler config p
     = match any_unknown_slot_choices q with
       | Raise e => (q, Raise e)
       | Ok true =>
           match handle_any_unknown_slot_choice q with
           | (p', Raise e) => (p', Raise e)
           | (p', Ok r) => (p', Ok (Some r))
           end
       | Ok false =>
           match intent (req_sessionState p) with
           | None => (q, Raise no_intent)
           | Some i' =>
               match call_handler_for_file (name i') q
                       (package_name config) with
               | (p', Raise e) => (p', Raise e)
               | (p', Ok r) => (p', Ok (Some r))
               end
           end
       end.
Proof.
  intros Hi q. subst q.
  split; [apply routed_lex_intent|].
  split; [unfold routed;
          by destruct (str_contains "Common_Exit_Feedback" (name i))|].
  split; [apply routed_intent|].
  split; [unfold routed;
          by destruct (str_contains "Common_Exit_Feedback" (name i))|].
  split; [reflexivity|].
  by apply regular_handler_routed.
Qed.

(** X20.  When the intent named by the callback cannot be resolved, the
    exception is an [IntentNotFoundError] and it ends the turn: there
    is no response, and the messages of the first response are not
    returned. *)
Theorem callback_to_unknown_intent (chain : list ChainHandler)
    (p p1 p2 : LexRequest) (lex_intent : Intent) (first : LexResponse)
    (callback_name : string) (e : exn) :
  get_intent p = Ok lex_intent ->
  first_response chain (name lex_intent) p = (p1, Ok first) ->
  requestAttributes first ≫= (.!! "callback") = Some callback_name ->
  call_handler_for_file callback_name (forwarded first p1)
    (package_name config) = (p2, Raise e) ->
  is_intent_not_found e = true
  /\ turn_response config chain p = Raise e.
Proof.
  intros Hi Hf Hcb Hcall.
  assert (He : is_intent_not_found e = true)
    by (eapply ResolverProps.call_handler_raises_only_not_found; eauto).
  split; [exact He|].
  unfold turn_response, dispatch. rewrite Hi, Hf.
  unfold callback_dispatch. rewrite Hcb.
  change (set_req_requestAttributes _
            (set_req_requestAttributes _
               (set_req_sessionState (sessionState first) p1)))
    with (forwarded first p1).
  rewrite Hcall. by destruct e.
Qed.

Lemma turn_response_raises (chain : list ChainHandler) (p : LexRequest)
    (e : exn) :
  turn_response config chain p = Raise e -> is_intent_not_found e = true.
Proof.
  unfold turn_response.
  destruct (dispatch config chain p) as [q [r|e1]]; [discriminate|].
  destruct e1; try discriminate. by intros [= <-].
Qed.

Lemma main_handler_raises (lex_payload : LexRequest) (e : exn) :
  _main_handler config lex_payload = Raise e ->
  is_intent_not_found e = true \/ e = no_formatter.
Proof.
  unfold _main_handler.
  destruct (turn_response config (handlers config) lex_payload)
    as [r|e1] eqn:Ht.
  - intros Hf. right. by apply AssemblyProps.format_raises_no_formatter in Hf.
  - intros [= <-]. left. by apply turn_response_raises in Ht.
Qed.

(** X21.  What can leave the top: [_main_handler] raises nothing but an
    [IntentNotFoundError] or the formatting error; [handler] raises
    only when automatic exception handling is off, and then what it
    raises is the error of parsing the event or one of those two. *)
Theorem what_escapes (event : pyval) (lex_payload : LexRequest) :
  (forall e,
     _main_handler config lex_payload = Raise e ->
     is_intent_not_found e = true \/ e = no_formatter)
  /\ (forall e,
        handler config event = Raise e ->
        auto_handle_exceptions config = false
        /\ (parse_lex_request event (session_attributes config) = Raise e
            \/ is_intent_not_found e = true
            \/ e = no_formatter)).
Proof.
  split; [apply main_handler_raises|].
  intros e. unfold handler.
  destruct (auto_handle_exceptions config).
  - destruct (_handle_request_with_auto_exception_handling config event)
      as [out|e0]; [discriminate|].
    destruct (LexRequest_of_event event) as [lex_request|e1]; [|discriminate].
    destruct (format_fallback e0 lex_request (error_message config))
      as (out & -> & _).
    discriminate.
  - intros Hraise. split; [reflexivity|].
    unfold _handle_request_with_auto_exception_handling in Hraise.
    destruct (parse_lex_request event (session_attributes config))
      as [q|e0].
    + right. by apply main_handler_raises in Hraise.
    + left. by injection Hraise as <-.
Qed.

(** X22.  A turn without disambiguation, without unknown slot choices
    and without callback: the output of [_main_handler] is the response
    of the intent's handler, formatted for the Lex channel, and when
    that response carries the session attributes of the request it was
    given, the output has the intent name under [lex_intent]. *)
Theorem direct_turn (p p' : LexRequest) (i i' : Intent) (module : PyModule)
    (handler : IntentHandler) (response : LexResponse) :
  enable_disambiguation config && disambiguation_available = false ->
  get_intent p = Ok i ->
  any_unknown_slot_choices (routed (name i) p) = Ok false ->
  intent (req_sessionState p) = Some i' ->
  import_module (file_to_import (name i') (package_name config)) = Ok module ->
  handler_func module = Some handler ->
  handler (routed (name i) p) = (p', Ok response) ->
  requestAttributes response ≫= (.!! "callback") = None ->
  forallb has_formatter (messages response) = true ->
  exists out,
    _main_handler config p = Ok out
    /\ format_for_channel response "lex" = Ok out
    /\ (sessionAttributes (sessionState response)
        = sessionAttributes (req_sessionState (routed (name i) p)) ->
        sessionAttributes (wire_sessionState out) !! "lex_intent"
        = Some (VStr (name i))).
Proof.
  intros Hoff Hi Hslots Hintent Himp Hfun Hh Hcb Hall.
  destruct (AssemblyProps.format_returns response "lex" Hall) as [out Hout].
  exists out.
  assert (Hreg : regular_intent_handler config p = (p', Ok (Some response))).
  { rewrite (regular_handler_routed p i Hi), Hslots, Hintent.
    unfold call_handler_for_file, resolve_and_call.
    by rewrite Himp, Hfun, Hh. }
  assert (Hturn : turn_response config (handlers config) p = Ok response).
  { unfold turn_response, dispatch. rewrite Hi.
    unfold handlers, disambiguation_handler_set. rewrite Hoff.
    unfold first_response. simpl. rewrite Hreg.
    unfold callback_dispatch. rewrite Hcb.
    by rewrite set_messages_same. }
  split; [|split; [exact Hout|]].
  - unfold _main_handler. by rewrite Hturn.
  - intros Hattrs.
    destruct (FormattingProps.formatted_messages_of_cases response "lex")
      as [[_ Hf]|[Hno _]]; [|congruence].
    unfold format_for_channel in Hout. rewrite Hf in Hout.
    injection Hout as <-. simpl.
    rewrite FormattingProps.stringify_attributes_fmap, lookup_fmap.
    unfold dump_attributes.
    rewrite (map_lookup_filter_Some_2 _ _ "lex_intent" (VStr (name i)));
      [reflexivity| |reflexivity].
    rewrite Hattrs, routed_lex_intent. apply lookup_insert_eq.
Qed.
End Props.

End ChainProps.

(** * Worked examples on the sample deployment *)

Import Sample.

(** ** Channel selection *)

Example channel_names :
  _get_channel "SMS" = sms /\ _get_channel "Sms" = sms /\
  _get_channel "LEX" = LexChannel /\ _get_channel "whatsapp" = LexChannel /\
  _get_channel EmptyString = LexChannel.
Proof.
  rewrite !FormattingProps.get_channel_cases. repeat split; reflexivity.
Qed.

(** ** Response assembly *)

(** Two image cards sent to the channel "sms" come out as they went in:
    no card is degraded to plain text. *)
Lemma image_cards_not_degraded_on_sms :
  _get_channel "sms" = sms /\
  formatted_messages_of
    (response_with
       [LexImageResponseCard (card "A"); LexImageResponseCard (card "B")] ∅)
    "sms"
  = Ok [LexImageResponseCard (card "A"); LexImageResponseCard (card "B")].
Proof.
  split; [|reflexivity].
  rewrite FormattingProps.get_channel_cases. reflexivity.
Qed.

Lemma image_card_passes_on_every_channel_witness :
  formatted_messages_of
    (response_with
       [LexImageResponseCard (card "A"); LexImageResponseCard (card "B")] ∅)
    "sms"
  = Ok [LexImageResponseCard (card "A"); LexImageResponseCard (card "B")]
  /\ ([LexImageResponseCard (card "A"); LexImageResponseCard (card "B")]
        !! 1%nat
      = Some (LexImageResponseCard (card "B")))
  /\ format_image_card LexChannel
       {| title := "Menu"; subtitle := Some EmptyString;
          imageUrl := Some "menu.png";
          buttons := [ {| text := "Small"; value := "S" |} ] |}
     = LexPlainText
         ("Menu" +:+ newline +:+ "Image: menu.png" +:+ newline +:+
          "Buttons: [Small -> S]").
Proof.
  assert (Hout :
    formatted_messages_of
      (response_with
         [LexImageResponseCard (card "A"); LexImageResponseCard (card "B")] ∅)
      "sms"
    = Ok [LexImageResponseCard (card "A"); LexImageResponseCard (card "B")])
    by reflexivity.
  split; [exact Hout|].
  destruct (FormattingProps.image_card_passes_on_every_channel _ _ _ Hout)
    as ([Hrw|Hkept] & _ & _ & _ & Hcard).
  - destruct Hrw as (c & Hc & _). discriminate Hc.
  - split; [apply (Hkept 1%nat (card "B")); reflexivity|].
    rewrite Hcard. reflexivity.
Defined.

(** A custom payload with a "text" key makes [format_for_channel]
    raise; it is not unwrapped. *)
Lemma custom_payload_rejected :
  format_for_channel
    (response_with [LexCustomPayload (VDict [("text", VStr "hi")])] ∅) "lex"
  = Raise no_formatter.
Proof. reflexivity. Qed.

Lemma custom_payload_formatting_witness :
  format_for_channel
    (response_with [LexCustomPayload (VDict [("text", VInt 5)])] ∅) "lex"
  = Raise no_formatter
  /\ format_custom_payload LexChannel (VDict [("text", VInt 5)]) = RString "5".
Proof.
  destruct (FormattingProps.custom_payload_formatting
              (VDict [("text", VInt 5)])
              (response_with [LexCustomPayload (VDict [("text", VInt 5)])] ∅)
              "lex") as (Hraise & Htext & _).
  split.
  - apply Hraise. simpl. left. reflexivity.
  - apply (Htext [("text", VInt 5)] (VInt 5)); reflexivity.
Defined.

Lemma session_attributes_stringified_witness :
  exists out,
    format_for_channel (response_with [LexPlainText "hi"] attributes) "lex"
    = Ok out /\
    sessionAttributes (wire_sessionState out) !! "nested"
    = Some (VStr "{'a': [1, 'x']}") /\
    sessionAttributes (wire_sessionState out) !! "flag" = Some (VStr "True") /\
    sessionAttributes (wire_sessionState out) !! "gone" = None /\
    forall k v,
      sessionAttributes (wire_sessionState out) !! k = Some v ->
      exists s, v = VStr s.
Proof.
  eexists. split; [vm_compute; reflexivity|].
  split; [vm_compute; reflexivity|].
  split; [vm_compute; reflexivity|].
  split; [vm_compute; reflexivity|].
  apply (FormattingProps.session_attributes_stringified
           (response_with [LexPlainText "hi"] attributes) "lex").
  vm_compute; reflexivity.
Defined.

(** ** Intent resolution *)

Lemma intent_name_normalized_witness :
  str_contains "_" "Foo_Bar" = true
  /\ file_to_import "Foo_Bar" None = "fulfillment_function.intents.foo_bar"
  /\ Forall (fun w => capitalized_word w = true) ["Order"; "Status"]
  /\ file_to_import "OrderStatus" (Some "bot")
     = "bot.intents.order_status".
Proof.
  destruct (ResolverProps.intent_name_normalized None)
    as (Hsep & _ & _ & _).
  destruct (ResolverProps.intent_name_normalized (Some "bot"))
    as (_ & _ & Hwords & _).
  assert (Hcap : Forall (fun w => capitalized_word w = true)
                   ["Order"; "Status"])
    by (repeat constructor).
  split; [reflexivity|].
  split; [apply (Hsep "Foo_Bar"); reflexivity|].
  split; [exact Hcap|].
  apply (Hwords ["Order"; "Status"] Hcap).
Defined.

(** The handler of the intent "Boom" raises a runtime error; the caller
    of [call_handler_for_file] gets a response, not the exception. *)
Lemma handler_exception_converted :
  import_module (file_to_import "Boom" None)
  = Ok {| handler_func := Some boom |}
  /\ boom first_turn = (first_turn, Raise runtime_error)
  /\ call_handler_for_file "Boom" first_turn None
     = (first_turn, Ok (handle_exceptions runtime_error first_turn None)).
Proof. repeat split; reflexivity. Qed.

Lemma handler_outcome_witness :
  import_module (file_to_import "OrderPizza" None)
  = Ok {| handler_func := Some (reply "Which size?" None) |}
  /\ call_handler_for_file "OrderPizza" first_turn None
     = reply "Which size?" None first_turn.
Proof.
  split; [reflexivity|].
  apply (ResolverProps.handler_outcome "OrderPizza" first_turn None
           {| handler_func := Some (reply "Which size?" None) |}
           (reply "Which size?" None)); reflexivity.
Defined.

(** ** The orchestrator *)

(** The only handler of the chain raises a key error; what leaves the
    chain is the error that no handler was found. *)
Lemma last_handler_exception_replaced :
  handlers config = [regular_intent_handler config]
  /\ (regular_intent_handler config failing_turn).2 = Raise key_error
  /\ (first_response (handlers config) "OrderPizza" failing_turn).2
     = Raise (no_handler "OrderPizza")
  /\ no_handler "OrderPizza" <> key_error.
Proof. repeat split; try reflexivity. discriminate. Qed.

Lemma chain_exceptions_witness :
  Declined [] failing_turn failing_turn
  /\ regular_intent_handler config failing_turn
     = ((regular_intent_handler config failing_turn).1, Raise key_error)
  /\ first_response ([] ++ [regular_intent_handler config]) "OrderPizza"
       failing_turn
     = ((regular_intent_handler config failing_turn).1,
        Raise (no_handler "OrderPizza")).
Proof.
  assert (Hd : Declined [] failing_turn failing_turn) by constructor.
  assert (Hh : regular_intent_handler config failing_turn
               = ((regular_intent_handler config failing_turn).1,
                  Raise key_error)) by reflexivity.
  split; [exact Hd|]. split; [exact Hh|].
  destruct (HandlerProps.chain_exceptions config [] []
              (regular_intent_handler config)
              "OrderPizza" failing_turn failing_turn _ key_error Hd Hh)
    as (_ & _ & Hlast & _).
  apply Hlast. reflexivity.
Defined.

(** The intent called back sets a callback of its own, which is still
    among the request attributes of the final response. *)
Lemma callback_left_in_final_attributes :
  exists final,
    turn_response config (handlers config) first_turn = Ok final /\
    messages final = [LexPlainText "one"; LexPlainText "two"] /\
    requestAttributes final ≫= (.!! "callback") = Some "Third".
Proof.
  eexists. split; [vm_compute; reflexivity|].
  split; vm_compute; reflexivity.
Qed.

Lemma callback_redispatch_witness :
  get_intent first_turn = Ok (intent_named "First")
  /\ first_response (handlers config) "First" first_turn
     = (first_turn_routed, Ok first_reply)
  /\ requestAttributes first_reply ≫= (.!! "callback") = Some "Second"
  /\ call_handler_for_file "Second" (forwarded first_reply first_turn_routed)
       (package_name config)
     = (forwarded first_reply first_turn_routed, Ok second_reply)
  /\ exists final,
       turn_response config (handlers config) first_turn = Ok final /\
       messages final = [LexPlainText "one"; LexPlainText "two"] /\
       sessionState final = sessionState second_reply.
Proof.
  assert (Hi : get_intent first_turn = Ok (intent_named "First"))
    by reflexivity.
  assert (Hfirst : first_response (handlers config)
                     (name (intent_named "First")) first_turn
                   = (first_turn_routed, Ok first_reply))
    by (vm_compute; reflexivity).
  assert (Hcb : requestAttributes first_reply ≫= (.!! "callback")
                = Some "Second") by (vm_compute; reflexivity).
  assert (Hcall : call_handler_for_file "Second"
                    (forwarded first_reply first_turn_routed)
                    (package_name config)
                  = (forwarded first_reply first_turn_routed, Ok second_reply))
    by (vm_compute; reflexivity).
  split; [exact Hi|]. split; [exact Hfirst|]. split; [exact Hcb|].
  split; [exact Hcall|].
  destruct (HandlerProps.callback_redispatch config (handlers config)
              first_turn first_turn_routed
              (forwarded first_reply first_turn_routed)
              (intent_named "First") first_reply second_reply "Second"
              Hi Hfirst Hcb Hcall)
    as (_ & _ & final & Hfinal & Hmsgs & Hstate & _).
  exists final. split; [exact Hfinal|]. split; [exact Hmsgs|exact Hstate].
Defined.

Lemma exceptions_become_fallback_witness :
  auto_handle_exceptions config = true
  /\ exists out,
       handler config (VInt 3) = Ok out
       /\ dialogAction (wire_sessionState out) = Some {| type := "Close" |}
       /\ wire_messages out
          = [{| contentType := "PlainText";
                wire_content :=
                  Some (VStr
                    "I'm sorry, I encountered an error while processing your request. Please try again.");
                wire_imageResponseCard := None |}].
Proof.
  split; [reflexivity|].
  assert (Hin :
    _handle_request_with_auto_exception_handling config (VInt 3)
    = Raise (PyException "TypeError" "argument must be a mapping"))
    by reflexivity.
  assert (Hparse :
    LexRequest_of_event (VInt 3)
    = Raise (PyException "TypeError" "argument must be a mapping"))
    by reflexivity.
  destruct (HandlerProps.exceptions_become_fallback config (VInt 3) eq_refl)
    as (_ & _ & Hraise).
  destruct (Hraise _ Hin) as (out & apology & Hout & _ & _ & Hminimal).
  destruct (Hminimal _ Hparse) as (_ & _ & Hapology & Hrecord).
  exists out. split; [exact Hout|].
  rewrite Hrecord, Hapology. split; reflexivity.
Defined.

Example unparsed_event_gets_minimal_response :
  handler config (VInt 3) = Ok (_create_minimal_error_response config).
Proof. reflexivity. Qed.

(** ** Further examples *)

Lemma image_card_text_title_witness :
  exists text,
    format_image_card LexChannel (card "Choose") = LexPlainText text
    /\ String.prefix "Choose" text = true
    /\ text <> "Choose".
Proof.
  destruct (LexChannelProps.image_card_text_title (card "Choose"))
    as (text & Htext & Hprefix & Hbare).
  exists text. split; [exact Htext|]. split; [exact Hprefix|].
  intros Heq. apply Hbare in Heq. discriminate Heq.
Defined.

Lemma custom_payload_rewrap_stable_witness :
  format_custom_payload LexChannel (VList [VInt 1; VInt 2])
  = RMessage (LexCustomPayload (VStr "[1, 2]"))
  /\ exists s,
       LexCustomPayload (VStr "[1, 2]") = LexCustomPayload (VStr s)
       /\ s = py_str (VList [VInt 1; VInt 2])
       /\ format_custom_payload LexChannel (VStr s)
          = RMessage (LexCustomPayload (VStr "[1, 2]")).
Proof.
  split; [reflexivity|].
  apply (LexChannelProps.custom_payload_rewrap_stable (VList [VInt 1; VInt 2])).
  reflexivity.
Defined.

Lemma format_messages_degrades_cards_witness :
  [LexPlainText "hi"; LexImageResponseCard (card "Choose")] !! 1%nat
  = Some (LexImageResponseCard (card "Choose"))
  /\ format_messages [LexPlainText "hi"; LexImageResponseCard (card "Choose")]
       !! 1%nat
     = Some (RMessage (format_image_card LexChannel (card "Choose"))).
Proof.
  split; [reflexivity|].
  destruct (LexChannelProps.format_messages_degrades_cards
              [LexPlainText "hi"; LexImageResponseCard (card "Choose")])
    as (_ & Hcard & _).
  apply Hcard. reflexivity.
Defined.

Lemma message_count_witness :
  exists out,
    format_for_channel
      (response_with [LexImageResponseCard (card "Choose")] ∅) "lex" = Ok out
    /\ (length (wire_messages out) = 1%nat
        \/ (1%nat = 1%nat /\ length (wire_messages out) = 2%nat)).
Proof.
  assert (Hout : { out |
    format_for_channel
      (response_with [LexImageResponseCard (card "Choose")] ∅) "lex" = Ok out })
    by (eexists; vm_compute; reflexivity).
  destruct Hout as [out Hout]. exists out. split; [exact Hout|].
  apply (AssemblyProps.message_count _ _ _ Hout).
Defined.

Lemma formatting_keeps_the_rest_witness :
  exists out,
    format_for_channel
      (response_with [LexPlainText "hi"] (<["city" := VStr "Oslo"]> attributes))
      "lex" = Ok out
    /\ sessionAttributes (wire_sessionState out) !! "city" = Some (VStr "Oslo")
    /\ sessionAttributes (wire_sessionState out) !! "gone" = None.
Proof.
  assert (Hout : { out |
    format_for_channel
      (response_with [LexPlainText "hi"] (<["city" := VStr "Oslo"]> attributes))
      "lex" = Ok out })
    by (eexists; vm_compute; reflexivity).
  destruct Hout as [out Hout]. exists out. split; [exact Hout|].
  destruct (AssemblyProps.formatting_keeps_the_rest _ _ _ Hout)
    as (Hstr & Hnone & _).
  split.
  - apply Hstr. vm_compute. reflexivity.
  - apply Hnone. vm_compute. reflexivity.
Defined.

Lemma separator_names_ignore_case_witness :
  str_contains "_" "Foo_Bar" = true
  /\ lower "Foo_Bar" = lower "FOO_bar"
  /\ file_to_import "Foo_Bar" None = file_to_import "FOO_bar" None.
Proof.
  split; [reflexivity|]. split; [reflexivity|].
  apply (ResolutionProps.separator_names_ignore_case "Foo_Bar" "FOO_bar" None);
    reflexivity.
Defined.

Lemma resolution_failures_witness :
  call_handler_for_file "Nowhere" first_turn None
  = (first_turn,
     Raise (IntentNotFoundError "Unable to find handler for intent"))
  /\ call_handler_for_file "Empty" first_turn None
     = (first_turn,
        Ok (handle_exceptions
              (missing_handler (file_to_import "Empty" None)) first_turn None)).
Proof.
  destruct (ResolutionProps.resolution_failures "Nowhere" first_turn None)
    as (Hmissing & _).
  destruct (ResolutionProps.resolution_failures "Empty" first_turn None)
    as (_ & Hempty).
  split.
  - apply (Hmissing
             "No module named fulfillment_function.intents.nowhere").
    reflexivity.
  - apply (Hempty {| handler_func := None |}); reflexivity.
Defined.

Lemma resolver_raises_witness :
  call_handler_for_file "Nowhere" first_turn None
  = (first_turn,
     Raise (IntentNotFoundError "Unable to find handler for intent"))
  /\ is_intent_not_found
       (IntentNotFoundError "Unable to find handler for intent") = true.
Proof.
  assert (Hcall : call_handler_for_file "Nowhere" first_turn None
                  = (first_turn,
                     Raise (IntentNotFoundError
                              "Unable to find handler for intent")))
    by reflexivity.
  split; [exact Hcall|].
  destruct (ResolutionProps.resolver_raises _ _ _ _ _ Hcall) as [Hnf _].
  exact Hnf.
Defined.

Lemma first_accepted_wins_witness :
  Declined [silent; crashing] first_turn first_turn
  /\ lost first_turn = (first_turn, Ok (Some lost_reply))
  /\ first_response ([silent; crashing] ++ lost :: [crashing]) "First"
       first_turn
     = (first_turn, Ok lost_reply).
Proof.
  assert (Hd : Declined [silent; crashing] first_turn first_turn).
  { eapply Declined_none; [reflexivity|].
    eapply Declined_raise; [reflexivity|reflexivity|]. constructor. }
  split; [exact Hd|]. split; [reflexivity|].
  apply (ChainProps.first_accepted_wins [silent; crashing] [crashing] lost
           "First" first_turn first_turn first_turn lost_reply Hd).
  reflexivity.
Defined.

Lemma all_declined_witness :
  Declined [silent; crashing] first_turn first_turn
  /\ first_response [silent; crashing] "First" first_turn
     = (first_turn, Raise (no_handler "First")).
Proof.
  assert (Hd : Declined [silent; crashing] first_turn first_turn).
  { eapply Declined_none; [reflexivity|].
    eapply Declined_raise; [reflexivity|reflexivity|]. constructor. }
  split; [exact Hd|].
  apply (ChainProps.all_declined _ "First" _ _ Hd).
Defined.

Lemma chain_raises_witness :
  first_response [crashing] "First" first_turn
  = (first_turn, Raise (no_handler "First"))
  /\ (is_intent_not_found (no_handler "First") = true
      \/ no_handler "First" = no_handler "First").
Proof.
  assert (Hr : first_response [crashing] "First" first_turn
               = (first_turn, Raise (no_handler "First"))) by reflexivity.
  split; [exact Hr|].
  apply (ChainProps.chain_raises _ _ _ _ _ Hr).
Defined.

Lemma regular_handler_prepares_witness :
  get_intent pizza_turn = Ok (intent_named "OrderPizza")
  /\ sessionAttributes (req_sessionState (routed "OrderPizza" pizza_turn))
     = <["lex_intent" := VStr "OrderPizza"]> ∅
  /\ activeContexts (req_sessionState (routed "OrderPizza" pizza_turn))
     = Some [transition_to_exit].
Proof.
  assert (Hi : get_intent pizza_turn = Ok (intent_named "OrderPizza"))
    by reflexivity.
  split; [exact Hi|].
  destruct (ChainProps.regular_handler_prepares config pizza_turn
              (intent_named "OrderPizza") Hi)
    as (Hattrs & Hctx & _).
  split; [exact Hattrs|exact Hctx].
Defined.

Lemma disambiguation_off_witness :
  enable_disambiguation config && disambiguation_available = false
  /\ handlers config = [regular_intent_handler config]
  /\ disambiguation_intent_handler config pizza_turn = (pizza_turn, Ok None).
Proof.
  assert (Hoff : enable_disambiguation config && disambiguation_available
                 = false) by reflexivity.
  split; [exact Hoff|].
  destruct (ChainProps.disambiguation_off config pizza_turn Hoff)
    as (Hh & Hd & _).
  split; [exact Hh|exact Hd].
Defined.

Lemma no_callback_no_change_witness :
  get_intent pizza_turn = Ok (intent_named "OrderPizza")
  /\ first_response (handlers config) "OrderPizza" pizza_turn
     = (routed "OrderPizza" pizza_turn, Ok pizza_reply)
  /\ requestAttributes pizza_reply ≫= (.!! "callback") = None
  /\ turn_response config (handlers config) pizza_turn = Ok pizza_reply.
Proof.
  assert (Hf : first_response (handlers config)
                 (name (intent_named "OrderPizza")) pizza_turn
               = (routed "OrderPizza" pizza_turn, Ok pizza_reply))
    by (vm_compute; reflexivity).
  assert (Hi : get_intent pizza_turn = Ok (intent_named "OrderPizza"))
    by reflexivity.
  assert (Hcb : requestAttributes pizza_reply ≫= (.!! "callback") = None)
    by reflexivity.
  split; [exact Hi|]. split; [exact Hf|]. split; [exact Hcb|].
  destruct (ChainProps.no_callback_no_change config (handlers config)
              pizza_turn (routed "OrderPizza" pizza_turn)
              (intent_named "OrderPizza") pizza_reply Hi Hf Hcb)
    as [Hturn _].
  exact Hturn.
Defined.

Lemma callback_to_unknown_intent_witness :
  get_intent first_turn = Ok (intent_named "First")
  /\ first_response [lost] "First" first_turn = (first_turn, Ok lost_reply)
  /\ requestAttributes lost_reply ≫= (.!! "callback") = Some "Nowhere"
  /\ call_handler_for_file "Nowhere" (forwarded lost_reply first_turn)
       (package_name config)
     = (forwarded lost_reply first_turn,
        Raise (IntentNotFoundError "Unable to find handler for intent"))
  /\ turn_response config [lost] first_turn
     = Raise (IntentNotFoundError "Unable to find handler for intent").
Proof.
  assert (Hcb : requestAttributes lost_reply ≫= (.!! "callback")
                = Some "Nowhere") by (vm_compute; reflexivity).
  assert (Hcall : call_handler_for_file "Nowhere"
                    (forwarded lost_reply first_turn) (package_name config)
                  = (forwarded lost_reply first_turn,
                     Raise (IntentNotFoundError
                              "Unable to find handler for intent")))
    by reflexivity.
  assert (Hi : get_intent first_turn = Ok (intent_named "First"))
    by reflexivity.
  assert (Hf : first_response [lost] (name (intent_named "First")) first_turn
               = (first_turn, Ok lost_reply)) by reflexivity.
  split; [exact Hi|]. split; [exact Hf|]. split; [exact Hcb|].
  split; [exact Hcall|].
  destruct (ChainProps.callback_to_unknown_intent config [lost] first_turn
              first_turn (forwarded lost_reply first_turn)
              (intent_named "First") lost_reply "Nowhere" _
              Hi Hf Hcb Hcall)
    as [_ Hturn].
  exact Hturn.
Defined.

Lemma what_escapes_witness :
  handler disambiguating_config (VInt 3)
  = Raise (PyException "TypeError" "argument must be a mapping")
  /\ auto_handle_exceptions disambiguating_config = false
  /\ parse_lex_request (VInt 3) (session_attributes disambiguating_config)
     = Raise (PyException "TypeError" "argument must be a mapping").
Proof.
  assert (Hr : handler disambiguating_config (VInt 3)
               = Raise (PyException "TypeError" "argument must be a mapping"))
    by reflexivity.
  split; [exact Hr|].
  destruct (ChainProps.what_escapes disambiguating_config (VInt 3) pizza_turn)
    as [_ Hhandler].
  destruct (Hhandler _ Hr) as [Hauto _].
  split; [exact Hauto|reflexivity].
Defined.

Lemma direct_turn_witness :
  exists out,
    _main_handler config pizza_turn = Ok out
    /\ format_for_channel pizza_reply "lex" = Ok out
    /\ sessionAttributes (wire_sessionState out) !! "lex_intent"
       = Some (VStr "OrderPizza").
Proof.
  destruct (ChainProps.direct_turn config pizza_turn
              (routed "OrderPizza" pizza_turn)
              (intent_named "OrderPizza") (intent_named "OrderPizza")
              {| handler_func := Some (reply "Which size?" None) |}
              (reply "Which size?" None) pizza_reply)
    as (out & Hmain & Hformat & Hattr); try reflexivity.
  exists out. split; [exact Hmain|]. split; [exact Hformat|].
  apply Hattr. reflexivity.
Defined.

Module WithDisambiguation.

#[local] Existing Instance disambiguating.

Lemma disambiguation_answers_witness :
  disambiguation_intent_handler disambiguating_config unsure
  = (unsure, Ok (Some prompt))
  /\ enable_disambiguation disambiguating_config = true.
Proof.
  assert (Hd : disambiguation_intent_handler disambiguating_config unsure
               = (unsure, Ok (Some prompt))) by reflexivity.
  split; [exact Hd|].
  destruct (ChainProps.disambiguation_answers _ _ _ _ Hd) as [Hon _].
  exact Hon.
Defined.

End WithDisambiguation.
